(** * Token packing with a cross-batch remainder

    Shallow embedding of the chunking cell of
    [sagemaker/24_train_bloom_peft_lora/sagemaker-notebook.ipynb]:
    the module-level variable [remainder], the function [chunk] and the
    [dataset.map(partial(chunk, chunk_length=1536), batched=True)] call that
    builds [lm_dataset].

    Python values are modelled as follows.
    - an [int] is a [Z]; [//] is [Z.div] (both round towards minus infinity);
    - a list is a [list]; [len] is [Z.of_nat (length _)];
    - a [dict] is an association list in insertion order, because the code
      reads "the first key" of its argument ([list(sample.keys())[0]]);
    - an exception is a constructor of [exn]; a computation that can raise and
      that reads or writes the global [remainder] lives in the monad [Py];
    - [x.copy()] is [x]: lists are values here.

    The tokenizer and the [datasets] library are not part of the notebook:
    a tokenized batch is given by its two columns, and [map] is the loop
    that applies a function to the batches in order. *)

From Stdlib Require Import ZArith List String Bool Lia.
Import ListNotations.
Open Scope string_scope.
Open Scope list_scope.
Open Scope Z_scope.

Set Implicit Arguments.

(** ** Exceptions and results *)

(** The exceptions that the cell can raise.  [NameError] carries the name
    that was read before any assignment; it stands for the class and for
    its subclass [UnboundLocalError], which is what a local name raises. *)
Inductive exn : Type :=
| NameError (name : string)
| KeyError (key : string)
| IndexError
| ZeroDivisionError
| ValueError.

Inductive outcome (A : Type) : Type :=
| Ok (a : A)
| Raise (e : exn).

Arguments Ok {A} a.
Arguments Raise {A} e.

Definition obind {A B : Type} (m : outcome A) (k : A -> outcome B) : outcome B :=
  match m with
  | Ok a => k a
  | Raise e => Raise e
  end.

(** ** Dictionaries *)

Module Dict.

Definition t (V : Type) : Type := list (string * V).

Definition keys {V : Type} (d : t V) : list string := map fst d.

(** [d[k]] *)
Fixpoint getitem {V : Type} (d : t V) (k : string) : outcome V :=
  match d with
  | [] => Raise (KeyError k)
  | (k', v) :: rest => if String.eqb k k' then Ok v else getitem rest k
  end.

(** [d[k] = v]: an existing key keeps its place, a new key goes last. *)
Fixpoint setitem {V : Type} (d : t V) (k : string) (v : V) : t V :=
  match d with
  | [] => [(k, v)]
  | (k', v') :: rest =>
      if String.eqb k k' then (k, v) :: rest else (k', v') :: setitem rest k v
  end.

(** [{k: f(k, v) for k, v in items}], filled entry by entry into [acc];
    the first exception raised by [f] ends the comprehension. *)
Fixpoint comprehension {V W : Type} (f : string -> V -> outcome W)
         (items : list (string * V)) (acc : t W) : outcome (t W) :=
  match items with
  | [] => Ok acc
  | (k, v) :: rest =>
      match f k v with
      | Ok w => comprehension f rest (setitem acc k w)
      | Raise e => Raise e
      end
  end.

End Dict.

(** ** Built-in operations on integers and lists *)

Abbreviation len l := (Z.of_nat (List.length l)) (only parsing).

(** [a // b] *)
Definition floordiv (a b : Z) : outcome Z :=
  if b =? 0 then Raise ZeroDivisionError else Ok (a / b).

(** Number of elements of [range(start, stop, step)], [step] not zero. *)
Definition range_length (start stop step : Z) : Z :=
  if 0 <? step then
    if start <? stop then (stop - start - 1) / step + 1 else 0
  else
    if stop <? start then (start - stop - 1) / (- step) + 1 else 0.

(** [range(start, stop, step)] *)
Definition range (start stop step : Z) : outcome (list Z) :=
  if step =? 0 then Raise ValueError
  else Ok (map (fun n => start + Z.of_nat n * step)
               (seq 0 (Z.to_nat (range_length start stop step)))).

(** A slice bound brought into [0 .. length]: a negative bound counts from
    the end, and a bound outside the list is clipped. *)
Definition adjust_index (length i : Z) : Z :=
  if i <? 0 then Z.max 0 (i + length) else Z.min i length.

(** [t[start:stop]], with [stop = None] for [t[start:]]. *)
Definition slice {A : Type} (t : list A) (start : Z) (stop : option Z) : list A :=
  let n := len t in
  let lo := adjust_index n start in
  let hi := match stop with Some j => adjust_index n j | None => n end in
  firstn (Z.to_nat (hi - lo)) (skipn (Z.to_nat lo) t).

(** ** The global state and the monad of statements *)

(** A token sequence, and a column of a batch: one token sequence per sample. *)
Definition tokens : Type := list Z.
Definition column : Type := list tokens.

Record globals : Type := Globals { remainder : Dict.t tokens }.

Definition Py (A : Type) : Type := globals -> outcome A * globals.

Definition ret {A : Type} (a : A) : Py A := fun g => (Ok a, g).

Definition bind {A B : Type} (m : Py A) (k : A -> Py B) : Py B :=
  fun g => match m g with
           | (Ok a, g') => k a g'
           | (Raise e, g') => (Raise e, g')
           end.

(** An expression that has no effect on the globals. *)
Definition eval {A : Type} (r : outcome A) : Py A := fun g => (r, g).

Definition get_remainder : Py (Dict.t tokens) := fun g => (Ok (remainder g), g).

Definition set_remainder (r : Dict.t tokens) : Py unit :=
  fun _ => (Ok tt, Globals r).

Declare Scope py_scope.
Delimit Scope py_scope with py.
Notation "x <- m ;; k" := (bind m (fun x => k))
  (at level 61, m at next level, right associativity) : py_scope.
Notation "m ;;; k" := (bind m (fun _ => k))
  (at level 61, right associativity) : py_scope.
Notation "x <~ m ;; k" := (obind m (fun x => k))
  (at level 61, m at next level, right associativity) : py_scope.

(** Reading a local variable that may not have been assigned yet. *)
Definition read_local {A : Type} (name : string) (v : option A) : outcome A :=
  match v with
  | Some a => Ok a
  | None => Raise (NameError name)
  end.

(** ** The notebook cell *)

(** [remainder = {"input_ids": [], "attention_mask": []}] *)
Definition initial_globals : globals :=
  Globals [("input_ids", []); ("attention_mask", [])].

(** The default value of the parameter [chunk_length]. *)
Definition chunk_length_default : Z := 2048.

Open Scope py_scope.

(** [def chunk(sample, chunk_length=2048)], statement by statement. *)
Definition chunk (sample : Dict.t column) (chunk_length : Z)
  : Py (Dict.t (list tokens)) :=
  (* global remainder *)
  rem <- get_remainder ;;
  (* concatenated_examples = {k: list(chain( *sample[k])) for k in sample.keys()} *)
  concatenated_examples <-
    eval (Dict.comprehension
            (fun k _ => (c <~ Dict.getitem sample k ;; Ok (List.concat c)))
            sample []) ;;
  (* concatenated_examples =
       {k: remainder[k] + concatenated_examples[k] for k in concatenated_examples.keys()} *)
  concatenated_examples <-
    eval (Dict.comprehension
            (fun k _ => (r <~ Dict.getitem rem k ;;
                         c <~ Dict.getitem concatenated_examples k ;;
                         Ok (r ++ c)))
            concatenated_examples []) ;;
  (* batch_total_length = len(concatenated_examples[list(sample.keys())[0]]) *)
  first_key <- eval (match Dict.keys sample with
                     | k :: _ => Ok k
                     | [] => Raise IndexError
                     end) ;;
  first_column <- eval (Dict.getitem concatenated_examples first_key) ;;
  let batch_total_length := len first_column in
  (* if batch_total_length >= chunk_length:
         batch_chunk_length = (batch_total_length // chunk_length) * chunk_length *)
  batch_chunk_length <-
    eval (if chunk_length <=? batch_total_length
          then (q <~ floordiv batch_total_length chunk_length ;;
                Ok (Some (q * chunk_length)))
          else Ok None) ;;
  (* result = {k: [t[i : i + chunk_length]
                   for i in range(0, batch_chunk_length, chunk_length)]
               for k, t in concatenated_examples.items()} *)
  result <-
    eval (Dict.comprehension
            (fun _ t => (stop <~ read_local "batch_chunk_length" batch_chunk_length ;;
                         starts <~ range 0 stop chunk_length ;;
                         Ok (map (fun i => slice t i (Some (i + chunk_length))) starts)))
            concatenated_examples []) ;;
  (* remainder = {k: concatenated_examples[k][batch_chunk_length:]
                  for k in concatenated_examples.keys()} *)
  new_remainder <-
    eval (Dict.comprehension
            (fun k _ => (t <~ Dict.getitem concatenated_examples k ;;
                         start <~ read_local "batch_chunk_length" batch_chunk_length ;;
                         Ok (slice t start None)))
            concatenated_examples []) ;;
  set_remainder new_remainder ;;;
  (* result["labels"] = result["input_ids"].copy() *)
  input_ids <- eval (Dict.getitem result "input_ids") ;;
  (* return result *)
  ret (Dict.setitem result "labels" input_ids).

(** [chunk(sample)] and [chunk(sample, chunk_length=n)]: a call with or
    without the keyword argument. *)
Definition call_chunk (sample : Dict.t column) (chunk_length : option Z)
  : Py (Dict.t (list tokens)) :=
  chunk sample (match chunk_length with
                | Some n => n
                | None => chunk_length_default
                end).

(** [partial(chunk, chunk_length=1536)] *)
Definition partial_chunk : Dict.t column -> Py (Dict.t (list tokens)) :=
  fun sample => call_chunk sample (Some 1536).

(** [dataset.map(f, batched=True)]: [f] is applied to the batches in order
    and the dictionaries it returns are collected; an exception raised by
    [f] ends the map. *)
Fixpoint map_batched {A B : Type} (f : A -> Py B) (batches : list A)
  : Py (list B) :=
  match batches with
  | [] => ret []
  | b :: rest =>
      r <- f b ;;
      rs <- map_batched f rest ;;
      ret (r :: rs)
  end.

(** The batch that the tokenizer hands to [chunk]: its columns, in the
    order in which the tokenizer returns them. *)
Definition encoding (input_ids attention_mask : column) : Dict.t column :=
  [("input_ids", input_ids); ("attention_mask", attention_mask)].

Definition remainder_of (input_ids attention_mask : tokens) : globals :=
  Globals [("input_ids", input_ids); ("attention_mask", attention_mask)].

(** [lm_dataset]: the second [map] of the cell, run on the tokenized batches
    from the initial value of [remainder]. *)
Definition lm_dataset (batches : list (column * column))
  : outcome (list (Dict.t (list tokens))) * globals :=
  map_batched partial_chunk
              (map (fun b => encoding (fst b) (snd b)) batches)
              initial_globals.

Close Scope py_scope.

(** ** The map over the batches *)

(** The column [k] of the dataset that [map] builds from the dictionaries
    returned for the batches. *)
Fixpoint dataset_column (k : string) (results : list (Dict.t (list tokens)))
  : outcome (list tokens) :=
  match results with
  | [] => Ok []
  | r :: rest =>
      obind (Dict.getitem r k) (fun bs =>
      obind (dataset_column k rest) (fun bss => Ok (bs ++ bss)))
  end.

(** [dataset.map(partial(chunk, chunk_length=L), batched=True)] on tokenized
    batches, for any block length [L]. *)
Definition chunk_dataset (L : Z) (batches : list (column * column))
  : Py (list (Dict.t (list tokens))) :=
  map_batched (fun sample => call_chunk sample (Some L))
              (map (fun b => encoding (fst b) (snd b)) batches).

(** ** Notions used in the statements *)

(** The two columns of a tokenized batch go in step: as many sequences
    under both keys, and each sample's mask as long as its token ids. *)
Definition lockstep (ids mask : column) : Prop :=
  Forall2 (fun a b => List.length a = List.length b) ids mask.

(** All the sequences of a column of the batches, in order. *)
Definition stream (columns : list column) : tokens :=
  List.concat (List.concat columns).

(** A batch of one sample of [n] tokens, numbered from 0, with its mask. *)
Definition one_sample (n : nat) : column * column :=
  ([map Z.of_nat (seq 0 n)], [repeat 1 n]).

(** The value of [batch_chunk_length] once it is assigned. *)
Definition full_length (L total : Z) : Z := total / L * L.

(** The list built for one column [t] by the comprehension of [result]. *)
Definition blocks_of (L total : Z) (t : tokens) : list tokens :=
  map (fun i => slice t i (Some (i + L)))
      (map (fun n => 0 + Z.of_nat n * L)
           (seq 0 (Z.to_nat (range_length 0 (full_length L total) L)))).

(** The entry of [remainder] built for one column [t]. *)
Definition rest_of (L total : Z) (t : tokens) : tokens :=
  slice t (full_length L total) None.

(** ** The packing step as the specification words it *)

Module Reference.

(** "Split the concatenated sequence into consecutive fixed-size blocks of
    length L", the final partial block being what is left over.  [fuel]
    bounds the number of blocks; the length of the sequence is enough. *)
Fixpoint split_blocks (fuel : nat) (L : Z) (t : tokens) : list tokens * tokens :=
  match fuel with
  | O => ([], t)
  | S fuel' =>
      if len t <? L then ([], t)
      else let (bs, r) := split_blocks fuel' L (skipn (Z.to_nat L) t) in
           (firstn (Z.to_nat L) t :: bs, r)
  end.

(** One batch of one column: concatenate its sequences in order, prepend
    the leftover of the previous batch, split; the blocks are returned
    and the partial block is the new leftover. *)
Definition pack (L : Z) (leftover : tokens) (batch : column)
  : list tokens * tokens :=
  let t := leftover ++ List.concat batch in
  split_blocks (List.length t) L t.

Record packed : Type := Packed {
  input_ids : list tokens;
  attention_mask : list tokens;
  labels : list tokens;
  leftover_input_ids : tokens;
  leftover_attention_mask : tokens
}.

(** The step of the fold: both columns are packed, the labels are a copy
    of the token-id blocks, and the leftovers are the accumulator. *)
Definition step (L : Z) (acc : packed) (batch : column * column) : packed :=
  let (bi, ri) := pack L (leftover_input_ids acc) (fst batch) in
  let (bm, rm) := pack L (leftover_attention_mask acc) (snd batch) in
  Packed (input_ids acc ++ bi) (attention_mask acc ++ bm) (labels acc ++ bi)
         ri rm.

Definition pack_dataset (L : Z) (batches : list (column * column)) : packed :=
  fold_left (step L) batches (Packed [] [] [] [] []).

End Reference.

(** ** Strings: [str.format], [in] and [str.split] *)

From Stdlib Require Import Ascii.

(** ["\n"] *)
Definition LF : string := String "010"%char EmptyString.

(** [template.format( **kwargs)], read from left to right: text is copied,
    [{{] and [}}] give one brace, and [{name}] is replaced by the keyword
    argument [name], a string.  A lone [}], a [{] inside a field and a field
    that is not closed raise [ValueError], a field with no name asks for a
    positional argument and raises [IndexError], a name that is no keyword
    raises [KeyError].
    Conversions ([!r]) and format specifications ([:spec]) are not
    modelled: the templates of the notebook use none.  [field] is the part
    of a field name read so far. *)
Fixpoint format_from (template : string) (field : option string)
         (kwargs : Dict.t string) : outcome string :=
  match template with
  | EmptyString =>
      match field with
      | None => Ok EmptyString
      | Some _ => Raise ValueError
      end
  | String c rest =>
      match field with
      | Some name =>
          if Ascii.eqb c "{"%char then Raise ValueError
          else if Ascii.eqb c "}"%char then
            obind (if String.eqb name EmptyString then Raise IndexError
                   else Dict.getitem kwargs name) (fun value =>
            obind (format_from rest None kwargs) (fun tail =>
            Ok (String.append value tail)))
          else format_from rest (Some (String.append name (String c EmptyString))) kwargs
      | None =>
          if Ascii.eqb c "{"%char then
            match rest with
            | String "{"%char rest' =>
                obind (format_from rest' None kwargs) (fun tail =>
                Ok (String "{"%char tail))
            | _ => format_from rest (Some EmptyString) kwargs
            end
          else if Ascii.eqb c "}"%char then
            match rest with
            | String "}"%char rest' =>
                obind (format_from rest' None kwargs) (fun tail =>
                Ok (String "}"%char tail))
            | _ => Raise ValueError
            end
          else
            obind (format_from rest None kwargs) (fun tail =>
            Ok (String c tail))
      end
  end.

Definition format (template : string) (kwargs : Dict.t string) : outcome string :=
  format_from template None kwargs.

(** [sep in s] *)
Fixpoint contains (sep s : string) : bool :=
  String.prefix sep s ||
  match s with
  | EmptyString => false
  | String _ s' => contains sep s'
  end.

(** The pieces of [s] between the occurrences of [sep], found from left to
    right without overlap.  [skip] counts the characters of an occurrence
    that are still to be passed over, and [piece] is the piece read so
    far. *)
Fixpoint split_from (sep s : string) (skip : nat) (piece : string) : list string :=
  match s with
  | EmptyString => [piece]
  | String c s' =>
      match skip with
      | S n => split_from sep s' n piece
      | O =>
          if String.prefix sep s
          then piece :: split_from sep s' (String.length sep - 1) EmptyString
          else split_from sep s' 0 (String.append piece (String c EmptyString))
      end
  end.

(** [s.split(sep)] *)
Definition split (s sep : string) : outcome (list string) :=
  if String.eqb sep EmptyString then Raise ValueError
  else Ok (split_from sep s 0 EmptyString).

(** [l[i]], a negative [i] counting from the end. *)
Definition list_getitem {A : Type} (l : list A) (i : Z) : outcome A :=
  let j := if i <? 0 then i + len l else i in
  if (j <? 0) || (len l <=? j) then Raise IndexError
  else match nth_error l (Z.to_nat j) with
       | Some x => Ok x
       | None => Raise IndexError
       end.

(** ** The prompt cells *)

(** The training template: the value of
    [f"Summarize the chat dialogue:\n{{dialogue}}\n---\nSummary:\n{{summary}}{{eos_token}}"],
    an f-string without fields, in which a doubled brace stands for one. *)
Definition prompt_template : string :=
  String.append "Summarize the chat dialogue:"
    (String.append LF (String.append "{dialogue}"
    (String.append LF (String.append "---"
    (String.append LF (String.append "Summary:"
    (String.append LF "{summary}{eos_token}"))))))).

(** [def template_dataset(sample)]: a row of the dataset, its columns being
    strings, gets the column [text]; [eos_token] is [tokenizer.eos_token]. *)
Definition template_dataset (eos_token : string) (sample : Dict.t string)
  : outcome (Dict.t string) :=
  obind (Dict.getitem sample "dialogue") (fun dialogue =>
  obind (Dict.getitem sample "summary") (fun summary =>
  obind (format prompt_template
                [("dialogue", dialogue); ("summary", summary);
                 ("eos_token", eos_token)]) (fun text =>
  Ok (Dict.setitem sample "text" text)))).

(** The template of the inference cell, which binds [prompt_template]
    again: the value of [f"Summarize the chat dialogue:\n{{dialogue}}\n---\nSummary:\n"]. *)
Definition inference_prompt_template : string :=
  String.append "Summarize the chat dialogue:"
    (String.append LF (String.append "{dialogue}"
    (String.append LF (String.append "---"
    (String.append LF (String.append "Summary:" LF)))))).

(** [formatted_sample["inputs"]]:
    [prompt_template.format(dialogue=sample["dialogue"])]. *)
Definition formatted_inputs (sample : Dict.t string) : outcome string :=
  obind (Dict.getitem sample "dialogue") (fun dialogue =>
  format inference_prompt_template [("dialogue", dialogue)]).

(** What the inference cell prints:
    [generated_text.split("Summary:")[-1]]. *)
Definition printed_summary (generated_text : string) : outcome string :=
  obind (split generated_text "Summary:") (fun pieces =>
  list_getitem pieces (-1)).

(** [randint(a, b)] returns any integer from [a] to [b], both included. *)
Definition randint_returns (a b drawn : Z) : Prop := a <= drawn <= b.

(** [dataset[randint(0, len(dataset))]], as the two cells that show a
    random sample write it; [drawn] is the number that [randint]
    returned. *)
Definition random_sample {A : Type} (dataset : list A) (drawn : Z) : outcome A :=
  list_getitem dataset drawn.

(** The prompt for a dialogue and the training text of a sample, written
    out. *)
Definition prompt_for (dialogue : string) : string :=
  String.append "Summarize the chat dialogue:"
    (String.append LF (String.append dialogue
    (String.append LF (String.append "---"
    (String.append LF (String.append "Summary:" LF)))))).

Definition text_for (dialogue summary eos_token : string) : string :=
  String.append (prompt_for dialogue) (String.append summary eos_token).

(** Two dictionaries are equal, as [==] has it, when they hold the same
    value under every key, in whatever order the keys were inserted. *)
Definition same_dict {V : Type} (d1 d2 : Dict.t V) : Prop :=
  forall k, Dict.getitem d1 k = Dict.getitem d2 k.

(** A dictionary made of the columns [input_ids] and [attention_mask], the
    keys in either order. *)
Definition two_columns {V : Type} (d : Dict.t V) (input_ids attention_mask : V)
  : Prop :=
  d = [("input_ids", input_ids); ("attention_mask", attention_mask)] \/
  d = [("attention_mask", attention_mask); ("input_ids", input_ids)].

(** ** Running the cell on small batches *)

Example chunk_two_blocks_and_a_rest :
  chunk (encoding [[1;2];[3;4;5]] [[1;1];[1;1;1]]) 4 (remainder_of [9] [1])
  = (Ok [("input_ids", [[9;1;2;3]]);
         ("attention_mask", [[1;1;1;1]]);
         ("labels", [[9;1;2;3]])],
     remainder_of [4;5] [1;1]).
Proof. reflexivity. Qed.

Example chunk_exact_fit :
  chunk (encoding [[1;2];[3;4;5]] [[1;1];[1;1;1]]) 2 (remainder_of [9] [1])
  = (Ok [("input_ids", [[9;1];[2;3];[4;5]]);
         ("attention_mask", [[1;1];[1;1];[1;1]]);
         ("labels", [[9;1];[2;3];[4;5]])],
     remainder_of [] []).
Proof. reflexivity. Qed.

Example chunk_zero_length :
  chunk (encoding [[1;2;3]] [[1;1;1]]) 0 initial_globals
  = (Raise ZeroDivisionError, initial_globals).
Proof. reflexivity. Qed.

(** A block length is positive.  With a negative [chunk_length] the
    assignment is executed, the range is empty and the slice starts at or
    after the end. *)
Example chunk_negative_length :
  chunk (encoding [[1;2;3;4;5]] [[1;1;1;1;1]]) (-2) initial_globals
  = (Ok [("input_ids", []); ("attention_mask", []); ("labels", [])],
     remainder_of [] []).
Proof. reflexivity. Qed.

Example chunk_unknown_column :
  chunk [("token_type_ids", [[0;0;0]])] 3 initial_globals
  = (Raise (KeyError "token_type_ids"), initial_globals).
Proof. reflexivity. Qed.

(** ** Slices and ranges *)

Section Slices.

Context {A : Type}.
Implicit Types t : list A.

Lemma slice_from t s :
  0 <= s -> slice t s None = skipn (Z.to_nat s) t.
Proof.
  intros Hs. unfold slice, adjust_index.
  destruct (Z.ltb_spec s 0) as [|_]; [lia|].
  destruct (Z.le_gt_cases s (len t)) as [Hle|Hgt].
  - rewrite Z.min_l by lia.
    apply firstn_all2. rewrite length_skipn. lia.
  - rewrite Z.min_r by lia.
    rewrite (skipn_all2 (n := Z.to_nat s)) by lia.
    replace (Z.to_nat (len t - len t)) with 0%nat by lia. reflexivity.
Qed.

Lemma slice_block t i L :
  0 <= i -> 0 <= L ->
  slice t i (Some (i + L)) = firstn (Z.to_nat L) (skipn (Z.to_nat i) t).
Proof.
  intros Hi HL. unfold slice, adjust_index.
  destruct (Z.ltb_spec i 0) as [|_]; [lia|].
  destruct (Z.ltb_spec (i + L) 0) as [|_]; [lia|].
  destruct (Z.le_gt_cases i (len t)) as [Hle|Hgt].
  - rewrite (Z.min_l i) by lia.
    destruct (Z.le_gt_cases (i + L) (len t)) as [Hle'|Hgt'].
    + rewrite Z.min_l by lia. f_equal. lia.
    + rewrite Z.min_r by lia.
      rewrite !firstn_all2; [reflexivity | |]; rewrite length_skipn; lia.
  - rewrite !Z.min_r by lia.
    rewrite !skipn_all2 by lia. now rewrite !firstn_nil.
Qed.

Lemma firstn_plus t (a b : nat) :
  firstn (a + b) t = firstn a t ++ firstn b (skipn a t).
Proof.
  revert t; induction a as [|a IH]; intros [|x t]; simpl;
    rewrite ?firstn_nil; try reflexivity.
  now rewrite IH.
Qed.

(** Consecutive blocks of [l] elements, [q] of them, cover the first
    [q * l] elements. *)
Lemma concat_consecutive_blocks t (l q : nat) :
  List.concat (map (fun k => firstn l (skipn (k * l) t)) (seq 0 q))
  = firstn (q * l) t.
Proof.
  induction q as [|q IH]; [reflexivity|].
  rewrite seq_S, map_app, concat_app, IH. simpl.
  rewrite app_nil_r, Nat.add_comm. symmetry. apply firstn_plus.
Qed.

End Slices.

Lemma range_length_multiple q L :
  0 < L -> 0 <= q -> range_length 0 (q * L) L = q.
Proof.
  intros HL Hq. unfold range_length.
  destruct (Z.ltb_spec 0 L) as [_|]; [|lia].
  destruct (Z.ltb_spec 0 (q * L)) as [Hpos|Hzero].
  - assert (Hq1 : 1 <= q) by nia.
    replace (q * L - 0 - 1) with ((q - 1) * L + (L - 1)) by ring.
    rewrite Z.div_add_l by lia. rewrite Z.div_small by lia. lia.
  - nia.
Qed.

Lemma range_multiples q L :
  0 < L -> 0 <= q ->
  range 0 (q * L) L
  = Ok (map (fun n => Z.of_nat n * L) (seq 0 (Z.to_nat q))).
Proof.
  intros HL Hq. unfold range.
  destruct (Z.eqb_spec L 0) as [|_]; [lia|].
  rewrite range_length_multiple by assumption. reflexivity.
Qed.

(** ** What one call computes on a tokenized batch *)

Lemma chunk_encoding ids mask rids rmask L :
  let t1 := rids ++ List.concat ids in
  let t2 := rmask ++ List.concat mask in
  chunk (encoding ids mask) L (remainder_of rids rmask)
  = if L <=? len t1 then
      if L =? 0 then (Raise ZeroDivisionError, remainder_of rids rmask)
      else (Ok [("input_ids", blocks_of L (len t1) t1);
                ("attention_mask", blocks_of L (len t1) t2);
                ("labels", blocks_of L (len t1) t1)],
            remainder_of (rest_of L (len t1) t1) (rest_of L (len t1) t2))
    else (Raise (NameError "batch_chunk_length"), remainder_of rids rmask).
Proof.
  intros t1 t2. unfold chunk, bind, eval, get_remainder, set_remainder, ret.
  cbn [encoding remainder_of remainder Dict.comprehension Dict.getitem
       Dict.setitem Dict.keys map fst obind String.eqb Ascii.eqb Bool.eqb].
  fold t1 t2.
  destruct (L <=? len t1); [|reflexivity].
  unfold floordiv, range. cbn [obind].
  destruct (L =? 0); reflexivity.
Qed.

Section Blocks.

Variables (L total : Z).
Hypothesis L_pos : 0 < L.
Hypothesis total_nonneg : 0 <= total.

Let l : nat := Z.to_nat L.
Let q : nat := Z.to_nat (total / L).

Lemma full_length_nat : Z.to_nat (full_length L total) = (q * l)%nat.
Proof.
  unfold full_length, q, l.
  assert (0 <= total / L) by (apply Z.div_pos; lia).
  rewrite Z2Nat.inj_mul by lia. reflexivity.
Qed.

Lemma full_length_bounds :
  0 <= full_length L total <= total /\ total - full_length L total < L.
Proof.
  unfold full_length.
  pose proof (Z.div_mod total L ltac:(lia)) as Hdm.
  pose proof (Z.mod_pos_bound total L L_pos) as Hm.
  assert (0 <= total / L) by (apply Z.div_pos; lia).
  nia.
Qed.

Lemma blocks_of_firstn_skipn (t : tokens) :
  blocks_of L total t = map (fun k => firstn l (skipn (k * l) t)) (seq 0 q).
Proof.
  unfold blocks_of, full_length.
  assert (Hq : 0 <= total / L) by (apply Z.div_pos; lia).
  rewrite range_length_multiple by assumption.
  rewrite map_map. apply map_ext. intros k. cbn [Z.add].
  rewrite slice_block by nia.
  unfold l. f_equal. f_equal. rewrite Z2Nat.inj_mul by lia.
  now rewrite Nat2Z.id.
Qed.

Lemma rest_of_skipn (t : tokens) :
  rest_of L total t = skipn (q * l) t.
Proof.
  unfold rest_of. rewrite slice_from by apply full_length_bounds.
  now rewrite full_length_nat.
Qed.

(** The blocks followed by the rest are the column itself. *)
Lemma blocks_rest_partition (t : tokens) :
  List.concat (blocks_of L total t) ++ rest_of L total t = t.
Proof.
  rewrite blocks_of_firstn_skipn, rest_of_skipn, concat_consecutive_blocks.
  apply firstn_skipn.
Qed.

Lemma concat_blocks_of (t : tokens) :
  List.concat (blocks_of L total t) = firstn (q * l) t.
Proof.
  now rewrite blocks_of_firstn_skipn, concat_consecutive_blocks.
Qed.

Lemma length_blocks_of (t : tokens) :
  len (blocks_of L total t) = total / L.
Proof.
  rewrite blocks_of_firstn_skipn, length_map, length_seq. unfold q.
  assert (0 <= total / L) by (apply Z.div_pos; lia). lia.
Qed.

(** A column as long as the measured one is cut into blocks of exactly
    [L] tokens, and less than [L] tokens are left. *)
Lemma blocks_of_full (t : tokens) :
  len t = total -> Forall (fun b => len b = L) (blocks_of L total t).
Proof.
  intros Ht. rewrite blocks_of_firstn_skipn.
  apply Forall_forall. intros b Hb.
  apply in_map_iff in Hb as (k & <- & Hk). apply in_seq in Hk.
  rewrite length_firstn, length_skipn.
  pose proof full_length_bounds as [[_ Hle] _].
  pose proof full_length_nat as Hn.
  assert (((k + 1) * l <= q * l)%nat) by (apply Nat.mul_le_mono_r; lia).
  unfold l in *. lia.
Qed.

Lemma rest_of_short (t : tokens) :
  len t = total -> len (rest_of L total t) < L.
Proof.
  intros Ht. rewrite rest_of_skipn, length_skipn.
  pose proof full_length_bounds as [[_ Hle] Hlt].
  pose proof full_length_nat as Hn. lia.
Qed.

Lemma length_rest_of (t : tokens) :
  len t = total -> len (rest_of L total t) = total mod L.
Proof.
  intros Ht. rewrite rest_of_skipn, length_skipn.
  pose proof full_length_bounds as [[Hge Hle] _].
  pose proof full_length_nat as Hn.
  rewrite Z.mod_eq by lia. unfold full_length in *. lia.
Qed.

End Blocks.

(** Slices of two lists of one length, taken at the same bounds, have one
    length: whatever [chunk_length] is, two columns of equal length are cut
    at the same places. *)
Lemma slice_lockstep {A B : Type} (t : list A) (u : list B) i j :
  List.length t = List.length u ->
  List.length (slice t i j) = List.length (slice u i j).
Proof.
  intros Htu. unfold slice.
  rewrite !length_firstn, !length_skipn, Htu. reflexivity.
Qed.

Lemma blocks_of_lockstep L total (t u : tokens) :
  List.length t = List.length u ->
  Forall2 (fun b c => List.length b = List.length c)
          (blocks_of L total t) (blocks_of L total u).
Proof.
  intros Htu. unfold blocks_of.
  induction (map _ (seq 0 _)) as [|k ks IH]; simpl; constructor; [|exact IH].
  now apply slice_lockstep.
Qed.

Lemma rest_of_lockstep L total (t u : tokens) :
  List.length t = List.length u ->
  List.length (rest_of L total t) = List.length (rest_of L total u).
Proof. intros Htu. now apply slice_lockstep. Qed.

(** ** Dictionary lookups after an assignment *)

Lemma getitem_setitem_same {V : Type} (d : Dict.t V) k v :
  Dict.getitem (Dict.setitem d k v) k = Ok v.
Proof.
  induction d as [|[k' v'] d IH]; simpl.
  - now rewrite String.eqb_refl.
  - destruct (String.eqb k k') eqn:E; simpl.
    + now rewrite String.eqb_refl.
    + now rewrite E.
Qed.

Lemma getitem_setitem_other {V : Type} (d : Dict.t V) k k' v :
  k <> k' ->
  Dict.getitem (Dict.setitem d k v) k' = Dict.getitem d k'.
Proof.
  intros Hk. induction d as [|[k0 v0] d IH]; simpl.
  - destruct (String.eqb_spec k' k); [congruence|reflexivity].
  - destruct (String.eqb_spec k k0) as [->|Hne]; simpl.
    + destruct (String.eqb_spec k' k0); [congruence|reflexivity].
    + now rewrite IH.
Qed.

(** Every call that returns ends with the assignment of [labels]. *)
Lemma chunk_returns sample L g result g' :
  chunk sample L g = (Ok result, g') ->
  exists result0 input_ids,
    Dict.getitem result0 "input_ids" = Ok input_ids /\
    result = Dict.setitem result0 "labels" input_ids.
Proof.
  unfold chunk, bind, eval, get_remainder, set_remainder, ret.
  repeat match goal with
         | |- context [match ?x with _ => _ end] =>
             match type of x with
             | outcome _ => destruct x eqn:?
             end
         end; try discriminate.
  intros H. injection H as <- _. eauto.
Qed.

Lemma lm_dataset_chunk_dataset batches :
  lm_dataset batches = chunk_dataset 1536 batches initial_globals.
Proof. reflexivity. Qed.

Lemma lockstep_concat ids mask :
  lockstep ids mask ->
  List.length (List.concat ids) = List.length (List.concat mask).
Proof.
  induction 1 as [|a b ids mask Hab _ IH]; simpl; [reflexivity|].
  rewrite !length_app. congruence.
Qed.

(** The three outcomes of a call on a tokenized batch. *)
Lemma chunk_cases ids mask rids rmask L :
  let t1 := rids ++ List.concat ids in
  let t2 := rmask ++ List.concat mask in
  let call := chunk (encoding ids mask) L (remainder_of rids rmask) in
  (len t1 < L /\
   call = (Raise (NameError "batch_chunk_length"), remainder_of rids rmask)) \/
  (L = 0 /\ call = (Raise ZeroDivisionError, remainder_of rids rmask)) \/
  (L <= len t1 /\ L <> 0 /\
   call = (Ok [("input_ids", blocks_of L (len t1) t1);
               ("attention_mask", blocks_of L (len t1) t2);
               ("labels", blocks_of L (len t1) t1)],
           remainder_of (rest_of L (len t1) t1) (rest_of L (len t1) t2))).
Proof.
  intros t1 t2 call. unfold call. rewrite chunk_encoding. fold t1 t2.
  destruct (Z.leb_spec L (len t1)); [|left; split; [assumption|reflexivity]].
  destruct (Z.eqb_spec L 0); right; [left|right]; repeat split; assumption.
Qed.

Lemma suffix_after_prefix {A : Type} (a b t : list A) :
  a ++ b = t -> b = skipn (List.length a) t.
Proof.
  intros <-. now rewrite skipn_app, skipn_all, Nat.sub_diag.
Qed.

(** ** Properties of one call *)

(** C1. On a batch with fewer than [chunk_length] tokens the specified
    step returns no block and keeps every token as the leftover, while the
    call of [chunk] raises and returns nothing. *)
Theorem chunk_short_batch_diverges :
  chunk (encoding [[1;2]] [[1;1]]) 3 initial_globals
  = (Raise (NameError "batch_chunk_length"), initial_globals) /\
  Reference.pack 3 [] [[1;2]] = ([], [1;2]) /\
  Reference.pack 3 [] [[1;1]] = ([], [1;1]).
Proof. repeat split. Qed.

(** Whatever the masks are, for a positive [chunk_length], every block returned
    under [input_ids] and under [labels] has exactly [chunk_length] tokens
    and the token ids left in [remainder] after the call, returned or
    raised, are fewer than [chunk_length]; the same holds of the
    [attention_mask] blocks and leftover when the mask tokens at hand
    (leftover and batch) are as many as the token ids. *)
Theorem chunk_block_lengths ids mask rids rmask L :
  0 < L ->
  match chunk (encoding ids mask) L (remainder_of rids rmask) with
  | (Ok result, g') =>
      exists bi bm bl ri rm,
        Dict.getitem result "input_ids" = Ok bi /\
        Dict.getitem result "attention_mask" = Ok bm /\
        Dict.getitem result "labels" = Ok bl /\
        g' = remainder_of ri rm /\
        Forall (fun b => len b = L) bi /\
        Forall (fun b => len b = L) bl /\
        len ri < L /\
        (len (rmask ++ List.concat mask) = len (rids ++ List.concat ids) ->
         Forall (fun b => len b = L) bm /\ len rm < L)
  | (Raise e, g') =>
      e = NameError "batch_chunk_length" /\
      g' = remainder_of rids rmask /\
      len rids < L /\
      (len (rmask ++ List.concat mask) = len (rids ++ List.concat ids) ->
       len rmask < L)
  end.
Proof.
  intros HL.
  destruct (chunk_cases ids mask rids rmask L)
    as [[Hshort ->]|[[HL0 _]|(Hle & _ & ->)]]; [|lia|].
  - repeat split; rewrite ?length_app in *; lia.
  - do 5 eexists. repeat split; try reflexivity.
    + apply blocks_of_full; lia.
    + apply blocks_of_full; lia.
    + apply rest_of_short; lia.
    + apply blocks_of_full; lia.
    + apply rest_of_short; lia.
Qed.

(** The cuts are placed by the number of token ids alone: a mask column of
    another length, which no tokenizer returns, comes back in a block that
    is not [chunk_length] long. *)
Lemma chunk_mask_block_not_full :
  exists result g' block,
    chunk (encoding [[1;2;3]] [[1]]) 3 initial_globals = (Ok result, g') /\
    Dict.getitem result "attention_mask" = Ok [block] /\
    len block <> 3.
Proof.
  exists [("input_ids", [[1;2;3]]); ("attention_mask", [[1]]);
          ("labels", [[1;2;3]])], initial_globals, [1].
  split; [reflexivity|]. split; [reflexivity|]. simpl. lia.
Qed.

(** C3.  On a tokenized batch, each sample's mask as long as its token ids,
    from a leftover whose two columns have one length, and for a positive
    [chunk_length]: every block returned under [input_ids],
    [attention_mask] and [labels] has exactly [chunk_length] tokens, and
    after the call, returned or raised, each column of [remainder] holds
    fewer than [chunk_length] tokens. *)
Theorem chunk_blocks_full ids mask rids rmask L :
  0 < L ->
  lockstep ids mask ->
  List.length rids = List.length rmask ->
  match chunk (encoding ids mask) L (remainder_of rids rmask) with
  | (Ok result, g') =>
      exists bi bm bl ri rm,
        Dict.getitem result "input_ids" = Ok bi /\
        Dict.getitem result "attention_mask" = Ok bm /\
        Dict.getitem result "labels" = Ok bl /\
        g' = remainder_of ri rm /\
        Forall (fun b => len b = L) bi /\
        Forall (fun b => len b = L) bm /\
        Forall (fun b => len b = L) bl /\
        len ri < L /\ len rm < L
  | (Raise e, g') =>
      e = NameError "batch_chunk_length" /\
      g' = remainder_of rids rmask /\
      len rids < L /\ len rmask < L
  end.
Proof.
  intros HL Hbatch Hrem.
  assert (Hlen : len (rmask ++ List.concat mask) = len (rids ++ List.concat ids)).
  { rewrite !length_app, (lockstep_concat Hbatch). lia. }
  pose proof (@chunk_block_lengths ids mask rids rmask L HL) as H.
  destruct (chunk (encoding ids mask) L (remainder_of rids rmask)) as [[result|e] g'].
  - destruct H as (bi & bm & bl & ri & rm & Hi & Hm & Hl & Hg & Fi & Fl & Hri & Hmask).
    destruct (Hmask Hlen) as [Fm Hrm].
    exists bi, bm, bl, ri, rm. repeat split; assumption.
  - destruct H as (He & Hg & Hri & Hmask). repeat split; auto.
Qed.

Lemma chunk_blocks_full_witness :
  0 < 4 /\
  lockstep [[1;2];[3;4;5]] [[1;1];[1;1;1]] /\
  List.length [9] = List.length [1] /\
  match chunk (encoding [[1;2];[3;4;5]] [[1;1];[1;1;1]]) 4 (remainder_of [9] [1]) with
  | (Ok result, g') =>
      exists bi bm bl ri rm,
        Dict.getitem result "input_ids" = Ok bi /\
        Dict.getitem result "attention_mask" = Ok bm /\
        Dict.getitem result "labels" = Ok bl /\
        g' = remainder_of ri rm /\
        Forall (fun b => len b = 4) bi /\
        Forall (fun b => len b = 4) bm /\
        Forall (fun b => len b = 4) bl /\
        len ri < 4 /\ len rm < 4
  | (Raise e, g') =>
      e = NameError "batch_chunk_length" /\
      g' = remainder_of [9] [1] /\
      len [9] < 4 /\ len [1] < 4
  end.
Proof.
  assert (Hbatch : lockstep [[1;2];[3;4;5]] [[1;1];[1;1;1]])
    by (repeat constructor).
  split; [lia|]. split; [exact Hbatch|]. split; [reflexivity|].
  apply (@chunk_blocks_full [[1;2];[3;4;5]] [[1;1];[1;1;1]] [9] [1] 4);
    [lia|exact Hbatch|reflexivity].
Defined.

(** C4.  On a call that sees fewer than [chunk_length] tokens the
    specified step keeps the whole stream, old leftover and batch, as the
    new leftover, while the call of [chunk] raises and [remainder] stays
    the old leftover, without the tokens of the batch. *)
Theorem chunk_short_call_keeps_old_leftover :
  chunk (encoding [[1]] [[1]]) 4 (remainder_of [9] [1])
  = (Raise (NameError "batch_chunk_length"), remainder_of [9] [1]) /\
  Reference.pack 4 [9] [[1]] = ([], [9;1]) /\
  Reference.pack 4 [1] [[1]] = ([], [1;1]).
Proof. repeat split. Qed.

(** For a positive [chunk_length], a call that returns hands out the
    stream "old leftover, then the batch" in order: its blocks followed by
    the new leftover are that stream, for both columns, so the old leftover
    comes first and none of its tokens is lost; and the new leftover is the
    suffix of the stream that starts where the last block ends.  A call
    that raises leaves [remainder] as it was. *)
Theorem chunk_remainder_fifo ids mask rids rmask L :
  0 < L ->
  match chunk (encoding ids mask) L (remainder_of rids rmask) with
  | (Ok result, g') =>
      exists bi bm ri rm,
        Dict.getitem result "input_ids" = Ok bi /\
        Dict.getitem result "attention_mask" = Ok bm /\
        g' = remainder_of ri rm /\
        List.concat bi ++ ri = rids ++ List.concat ids /\
        List.concat bm ++ rm = rmask ++ List.concat mask /\
        ri = skipn (List.length (List.concat bi)) (rids ++ List.concat ids) /\
        rm = skipn (List.length (List.concat bm)) (rmask ++ List.concat mask)
  | (Raise e, g') =>
      e = NameError "batch_chunk_length" /\ g' = remainder_of rids rmask
  end.
Proof.
  intros HL.
  destruct (chunk_cases ids mask rids rmask L)
    as [[Hshort ->]|[[HL0 _]|(Hle & _ & ->)]]; [|lia|].
  - split; reflexivity.
  - set (t1 := rids ++ List.concat ids) in *.
    set (t2 := rmask ++ List.concat mask) in *.
    assert (H1 : List.concat (blocks_of L (len t1) t1) ++ rest_of L (len t1) t1 = t1)
      by (apply blocks_rest_partition; lia).
    assert (H2 : List.concat (blocks_of L (len t1) t2) ++ rest_of L (len t1) t2 = t2)
      by (apply blocks_rest_partition; lia).
    do 4 eexists. repeat split; try reflexivity; try assumption.
    + now apply suffix_after_prefix.
    + now apply suffix_after_prefix.
Qed.

Lemma chunk_remainder_fifo_witness :
  0 < 4 /\
  match chunk (encoding [[1;2];[3;4;5]] [[1;1];[1;1;1]]) 4 (remainder_of [9] [1]) with
  | (Ok result, g') =>
      exists bi bm ri rm,
        Dict.getitem result "input_ids" = Ok bi /\
        Dict.getitem result "attention_mask" = Ok bm /\
        g' = remainder_of ri rm /\
        List.concat bi ++ ri = [9] ++ List.concat [[1;2];[3;4;5]] /\
        List.concat bm ++ rm = [1] ++ List.concat [[1;1];[1;1;1]] /\
        ri = skipn (List.length (List.concat bi)) ([9] ++ List.concat [[1;2];[3;4;5]]) /\
        rm = skipn (List.length (List.concat bm)) ([1] ++ List.concat [[1;1];[1;1;1]])
  | (Raise e, g') =>
      e = NameError "batch_chunk_length" /\ g' = remainder_of [9] [1]
  end.
Proof.
  split; [lia|].
  apply (chunk_remainder_fifo [[1;2];[3;4;5]] [[1;1];[1;1;1]] [9] [1]). lia.
Defined.

(** C5. In the dictionary returned by any call, on any batch and from any
    state, [labels] is the very list of blocks stored under [input_ids]:
    as many blocks, and the same token at every position of every block. *)
Theorem chunk_labels_are_input_ids sample L g result g' :
  chunk sample L g = (Ok result, g') ->
  exists input_ids labels,
    Dict.getitem result "input_ids" = Ok input_ids /\
    Dict.getitem result "labels" = Ok labels /\
    labels = input_ids /\
    List.length labels = List.length input_ids /\
    forall b i, nth i (nth b labels []) 0 = nth i (nth b input_ids []) 0.
Proof.
  intros Hcall. apply chunk_returns in Hcall as (result0 & blocks & Hget & ->).
  exists blocks, blocks. repeat split.
  - rewrite getitem_setitem_other by discriminate. exact Hget.
  - apply getitem_setitem_same.
Qed.

Lemma chunk_labels_are_input_ids_witness :
  chunk (encoding [[1;2];[3;4;5]] [[1;1];[1;1;1]]) 4 (remainder_of [9] [1])
  = (Ok [("input_ids", [[9;1;2;3]]); ("attention_mask", [[1;1;1;1]]);
         ("labels", [[9;1;2;3]])],
     remainder_of [4;5] [1;1]) /\
  exists input_ids labels,
    Dict.getitem
      [("input_ids", [[9;1;2;3]]); ("attention_mask", [[1;1;1;1]]);
       ("labels", [[9;1;2;3]])] "input_ids" = Ok input_ids /\
    Dict.getitem
      [("input_ids", [[9;1;2;3]]); ("attention_mask", [[1;1;1;1]]);
       ("labels", [[9;1;2;3]])] "labels" = Ok labels /\
    labels = input_ids /\
    List.length labels = List.length input_ids /\
    forall b i, nth i (nth b labels []) 0 = nth i (nth b input_ids []) 0.
Proof.
  split; [reflexivity|].
  apply (@chunk_labels_are_input_ids
           (encoding [[1;2];[3;4;5]] [[1;1];[1;1;1]]) 4 (remainder_of [9] [1])
           _ (remainder_of [4;5] [1;1])).
  reflexivity.
Defined.

Lemma same_dict_swap {V : Type} a b (x y : V) d :
  a <> b -> same_dict ((a, x) :: (b, y) :: d) ((b, y) :: (a, x) :: d).
Proof.
  intros Hab k. cbn [Dict.getitem].
  destruct (String.eqb_spec k a) as [Ea|Ea], (String.eqb_spec k b) as [Eb|Eb];
    congruence.
Qed.

Lemma same_dict_refl {V : Type} (d : Dict.t V) : same_dict d d.
Proof. intros k. reflexivity. Qed.

Lemma same_dict_trans {V : Type} (d1 d2 d3 : Dict.t V) :
  same_dict d1 d2 -> same_dict d2 d3 -> same_dict d1 d3.
Proof. intros H12 H23 k. now rewrite H12. Qed.

Lemma same_dict_sym {V : Type} (d1 d2 : Dict.t V) :
  same_dict d1 d2 -> same_dict d2 d1.
Proof. intros H k. now rewrite H. Qed.

Ltac run_chunk :=
  unfold chunk, bind, eval, get_remainder, set_remainder, ret;
  cbn [remainder Dict.comprehension Dict.getitem Dict.setitem Dict.keys
       map fst obind String.eqb Ascii.eqb Bool.eqb].

(** A call on the two columns of a tokenized batch, from a leftover of two
    columns, the keys of each in either order: the outcome is the one of
    [chunk_cases], up to the order of the keys of the dictionaries. *)
Lemma chunk_two_columns sample g ids mask rids rmask L :
  two_columns sample ids mask ->
  two_columns (remainder g) rids rmask ->
  List.length (rids ++ List.concat ids) = List.length (rmask ++ List.concat mask) ->
  let t1 := rids ++ List.concat ids in
  let t2 := rmask ++ List.concat mask in
  (len t1 < L /\
   chunk sample L g = (Raise (NameError "batch_chunk_length"), g)) \/
  (L = 0 /\ chunk sample L g = (Raise ZeroDivisionError, g)) \/
  (L <= len t1 /\ L <> 0 /\
   exists result g',
     chunk sample L g = (Ok result, g') /\
     same_dict result [("input_ids", blocks_of L (len t1) t1);
                       ("attention_mask", blocks_of L (len t1) t2);
                       ("labels", blocks_of L (len t1) t1)] /\
     same_dict (remainder g')
               [("input_ids", rest_of L (len t1) t1);
                ("attention_mask", rest_of L (len t1) t2)]).
Proof.
  intros Hs Hg Hlen t1 t2. fold t1 t2 in Hlen. destruct g as [r]. cbn [remainder] in Hg.
  destruct (Z.leb_spec L (len t1)) as [Hle|Hlt].
  - destruct (Z.eqb_spec L 0) as [HL0|HL0]; right; [left|right].
    + split; [exact HL0|].
      destruct Hs as [->| ->], Hg as [->| ->]; run_chunk; fold t1 t2;
        rewrite <- ?Hlen;
        (destruct (Z.leb_spec L (len t1)) as [_|]; [|lia]);
        unfold floordiv; (destruct (Z.eqb_spec L 0) as [_|]; [|lia]);
        reflexivity.
    + split; [exact Hle|]. split; [exact HL0|].
      destruct Hs as [->| ->], Hg as [->| ->]; run_chunk; fold t1 t2;
        rewrite <- ?Hlen;
        (destruct (Z.leb_spec L (len t1)) as [_|]; [|lia]);
        unfold floordiv, range; (destruct (Z.eqb_spec L 0) as [|_]; [lia|]);
        cbn [obind read_local map Dict.getitem Dict.setitem String.eqb
             Ascii.eqb Bool.eqb];
        do 2 eexists; (split; [reflexivity|]); cbn [remainder];
        fold (full_length L (len t1));
        fold (blocks_of L (len t1) t1); fold (blocks_of L (len t1) t2);
        fold (rest_of L (len t1) t1); fold (rest_of L (len t1) t2);
        split;
        first [apply same_dict_refl
              | apply same_dict_swap; discriminate
              | apply same_dict_sym, same_dict_swap; discriminate ].
  - left. split; [exact Hlt|].
    destruct Hs as [->| ->], Hg as [->| ->]; run_chunk; fold t1 t2;
      rewrite <- ?Hlen;
      (destruct (Z.leb_spec L (len t1)) as [|_]; [lia|]);
      reflexivity.
Qed.

(** C7.  Two calls with the same [chunk_length], on batches that are equal
    dictionaries and from values of [remainder] that are equal
    dictionaries, return equal dictionaries of blocks and leave equal
    values of [remainder], or raise the same exception and leave
    [remainder] as it was: for a tokenized batch, each sample's mask as
    long as its token ids, the outcome depends on the columns, the leftover
    and [chunk_length], and not on the order in which the keys of the
    dictionaries were inserted. *)
Theorem chunk_equal_inputs_equal_outputs
        sample1 sample2 g1 g2 ids mask rids rmask L :
  two_columns sample1 ids mask ->
  two_columns sample2 ids mask ->
  two_columns (remainder g1) rids rmask ->
  two_columns (remainder g2) rids rmask ->
  lockstep ids mask ->
  List.length rids = List.length rmask ->
  same_dict sample1 sample2 /\
  same_dict (remainder g1) (remainder g2) /\
  match chunk sample1 L g1, chunk sample2 L g2 with
  | (Ok result1, g1'), (Ok result2, g2') =>
      same_dict result1 result2 /\
      same_dict (remainder g1') (remainder g2')
  | (Raise e1, g1'), (Raise e2, g2') =>
      e1 = e2 /\ g1' = g1 /\ g2' = g2
  | _, _ => False
  end.
Proof.
  intros Hs1 Hs2 Hg1 Hg2 Hbatch Hrem.
  assert (Hlen : List.length (rids ++ List.concat ids)
                 = List.length (rmask ++ List.concat mask)).
  { rewrite !length_app, (lockstep_concat Hbatch). congruence. }
  split; [|split].
  - destruct Hs1 as [->| ->], Hs2 as [->| ->];
      first [apply same_dict_refl
            | apply same_dict_swap; discriminate
            | apply same_dict_sym, same_dict_swap; discriminate ].
  - destruct Hg1 as [->| ->], Hg2 as [->| ->];
      first [apply same_dict_refl
            | apply same_dict_swap; discriminate
            | apply same_dict_sym, same_dict_swap; discriminate ].
  - destruct (@chunk_two_columns sample1 g1 ids mask rids rmask L Hs1 Hg1 Hlen)
      as [[H1 ->]|[[H1 ->]|(H1 & H1' & r1 & g1' & -> & Hr1 & Hg1')]];
    destruct (@chunk_two_columns sample2 g2 ids mask rids rmask L Hs2 Hg2 Hlen)
      as [[H2 ->]|[[H2 ->]|(H2 & H2' & r2 & g2' & -> & Hr2 & Hg2')]];
      try lia; try (repeat split; reflexivity).
    split.
    + eapply same_dict_trans; [exact Hr1|apply same_dict_sym, Hr2].
    + eapply same_dict_trans; [exact Hg1'|apply same_dict_sym, Hg2'].
Qed.

Lemma chunk_equal_inputs_equal_outputs_witness :
  let sample1 := [("input_ids", [[1;2];[3;4;5]]); ("attention_mask", [[1;1];[1;1;1]])] in
  let sample2 := [("attention_mask", [[1;1];[1;1;1]]); ("input_ids", [[1;2];[3;4;5]])] in
  let g1 := Globals [("input_ids", [9]); ("attention_mask", [1])] in
  let g2 := Globals [("attention_mask", [1]); ("input_ids", [9])] in
  two_columns sample1 [[1;2];[3;4;5]] [[1;1];[1;1;1]] /\
  two_columns sample2 [[1;2];[3;4;5]] [[1;1];[1;1;1]] /\
  two_columns (remainder g1) [9] [1] /\
  two_columns (remainder g2) [9] [1] /\
  lockstep [[1;2];[3;4;5]] [[1;1];[1;1;1]] /\
  List.length [9] = List.length [1] /\
  same_dict sample1 sample2 /\
  same_dict (remainder g1) (remainder g2) /\
  match chunk sample1 4 g1, chunk sample2 4 g2 with
  | (Ok result1, g1'), (Ok result2, g2') =>
      same_dict result1 result2 /\
      same_dict (remainder g1') (remainder g2')
  | (Raise e1, g1'), (Raise e2, g2') =>
      e1 = e2 /\ g1' = g1 /\ g2' = g2
  | _, _ => False
  end.
Proof.
  intros sample1 sample2 g1 g2.
  assert (H1 : two_columns sample1 [[1;2];[3;4;5]] [[1;1];[1;1;1]])
    by (left; reflexivity).
  assert (H2 : two_columns sample2 [[1;2];[3;4;5]] [[1;1];[1;1;1]])
    by (right; reflexivity).
  assert (H3 : two_columns (remainder g1) [9] [1]) by (left; reflexivity).
  assert (H4 : two_columns (remainder g2) [9] [1]) by (right; reflexivity).
  assert (H5 : lockstep [[1;2];[3;4;5]] [[1;1];[1;1;1]]) by (repeat constructor).
  do 4 (split; [assumption|]). split; [exact H5|]. split; [reflexivity|].
  exact (@chunk_equal_inputs_equal_outputs sample1 sample2 g1 g2
           [[1;2];[3;4;5]] [[1;1];[1;1;1]] [9] [1] 4 H1 H2 H3 H4 H5 eq_refl).
Defined.

(** C9.  A call in which the leftover and the batch together hold fewer
    than [chunk_length] token ids raises [NameError]: [batch_chunk_length]
    is read without having been assigned.  Nothing is returned and
    [remainder] keeps its value, where the specified step returns no block
    and keeps all the tokens. *)
Theorem chunk_short_batch_raises ids mask rids rmask L :
  len rids + len (List.concat ids) < L ->
  chunk (encoding ids mask) L (remainder_of rids rmask)
  = (Raise (NameError "batch_chunk_length"), remainder_of rids rmask) /\
  Reference.pack L rids ids = ([], rids ++ List.concat ids).
Proof.
  intros Hshort. split.
  - rewrite chunk_encoding. cbv zeta. rewrite length_app.
    destruct (Z.leb_spec L (Z.of_nat (List.length rids
                                      + List.length (List.concat ids))))
      as [Hle|_]; [lia|reflexivity].
  - unfold Reference.pack.
    destruct (List.length (rids ++ List.concat ids)) eqn:E; [reflexivity|].
    cbn [Reference.split_blocks].
    destruct (Z.ltb_spec (len (rids ++ List.concat ids)) L) as [_|Hge];
      [reflexivity|].
    rewrite length_app in Hge. lia.
Qed.

Lemma chunk_short_batch_raises_witness :
  len [5] + len (List.concat [[1;2];[3]]) < 1536 /\
  chunk (encoding [[1;2];[3]] [[1;1];[1]]) 1536 (remainder_of [5] [1])
  = (Raise (NameError "batch_chunk_length"), remainder_of [5] [1]) /\
  Reference.pack 1536 [5] [[1;2];[3]] = ([], [5] ++ List.concat [[1;2];[3]]).
Proof.
  split; [simpl; lia|].
  apply (chunk_short_batch_raises [[1;2];[3]] [[1;1];[1]] [5] [1]).
  simpl; lia.
Defined.

(** C10.  On a batch whose samples have a mask as long as their token ids,
    from a leftover whose two columns have one length, a call that returns
    gives as many blocks under [input_ids], [attention_mask] and [labels],
    corresponding blocks have one length, and the two columns of the new
    leftover have one length again; a call that raises leaves [remainder]
    as it was. *)
Theorem chunk_keeps_lockstep ids mask rids rmask L :
  lockstep ids mask ->
  List.length rids = List.length rmask ->
  match chunk (encoding ids mask) L (remainder_of rids rmask) with
  | (Ok result, g') =>
      exists bi bm bl ri rm,
        Dict.getitem result "input_ids" = Ok bi /\
        Dict.getitem result "attention_mask" = Ok bm /\
        Dict.getitem result "labels" = Ok bl /\
        g' = remainder_of ri rm /\
        List.length bi = List.length bm /\
        List.length bm = List.length bl /\
        Forall2 (fun b c => List.length b = List.length c) bi bm /\
        Forall2 (fun b c => List.length b = List.length c) bi bl /\
        List.length ri = List.length rm
  | (Raise e, g') => g' = remainder_of rids rmask
  end.
Proof.
  intros Hbatch Hrem.
  assert (Hlen : List.length (rids ++ List.concat ids)
                 = List.length (rmask ++ List.concat mask)).
  { rewrite !length_app, (lockstep_concat Hbatch). congruence. }
  destruct (chunk_cases ids mask rids rmask L)
    as [[_ ->]|[[_ ->]|(_ & _ & ->)]]; try reflexivity.
  do 5 eexists. repeat split; try reflexivity.
  - unfold blocks_of. now rewrite !length_map.
  - unfold blocks_of. now rewrite !length_map.
  - now apply blocks_of_lockstep.
  - now apply blocks_of_lockstep.
  - now apply rest_of_lockstep.
Qed.

Lemma chunk_keeps_lockstep_witness :
  lockstep [[1;2];[3;4;5]] [[1;1];[1;1;1]] /\
  List.length [9] = List.length [1] /\
  match chunk (encoding [[1;2];[3;4;5]] [[1;1];[1;1;1]]) 4 (remainder_of [9] [1]) with
  | (Ok result, g') =>
      exists bi bm bl ri rm,
        Dict.getitem result "input_ids" = Ok bi /\
        Dict.getitem result "attention_mask" = Ok bm /\
        Dict.getitem result "labels" = Ok bl /\
        g' = remainder_of ri rm /\
        List.length bi = List.length bm /\
        List.length bm = List.length bl /\
        Forall2 (fun b c => List.length b = List.length c) bi bm /\
        Forall2 (fun b c => List.length b = List.length c) bi bl /\
        List.length ri = List.length rm
  | (Raise e, g') => g' = remainder_of [9] [1]
  end.
Proof.
  assert (Hbatch : lockstep [[1;2];[3;4;5]] [[1;1];[1;1;1]])
    by (repeat constructor).
  split; [exact Hbatch|]. split; [reflexivity|].
  apply (@chunk_keeps_lockstep _ _ [9] [1] 4 Hbatch). reflexivity.
Defined.

(** ** Properties of the map over the batches *)

Lemma chunk_dataset_nil L g : chunk_dataset L [] g = (Ok [], g).
Proof. reflexivity. Qed.

Lemma chunk_dataset_cons L b batches g :
  chunk_dataset L (b :: batches) g
  = match chunk (encoding (fst b) (snd b)) L g with
    | (Ok r, g1) =>
        match chunk_dataset L batches g1 with
        | (Ok rs, g2) => (Ok (r :: rs), g2)
        | (Raise e, g2) => (Raise e, g2)
        end
    | (Raise e, g1) => (Raise e, g1)
    end.
Proof. reflexivity. Qed.

Lemma stream_cons c columns : stream (c :: columns) = List.concat c ++ stream columns.
Proof. unfold stream. simpl. now rewrite concat_app. Qed.


(** C2.  On a first batch of four tokens and a second of one, with blocks
    of three, the specified fold gives one block and keeps the tokens 4 and
    5, while the map of the cell raises on the second batch: no dataset is
    built, [remainder] keeps the token 4 of the first batch, and the token
    5 is in no block and in no leftover. *)
Theorem chunk_dataset_short_batch_drops_token :
  let batches := [([[1;2;3;4]], [[1;1;1;1]]); ([[5]], [[1]])] in
  chunk_dataset 3 batches initial_globals
  = (Raise (NameError "batch_chunk_length"), remainder_of [4] [1]) /\
  stream (map fst batches) = [1;2;3;4;5] /\
  Reference.pack_dataset 3 batches
  = Reference.Packed [[1;2;3]] [[1;1;1]] [[1;2;3]] [4;5] [1;1].
Proof. repeat split. Qed.



Example chunk_dataset_two_batches :
  chunk_dataset 3 [([[1;2];[3;4]], [[1;1];[1;1]]); ([[5;6;7]], [[1;1;1]])]
                initial_globals
  = (Ok [[("input_ids", [[1;2;3]]); ("attention_mask", [[1;1;1]]);
          ("labels", [[1;2;3]])];
         [("input_ids", [[4;5;6]]); ("attention_mask", [[1;1;1]]);
          ("labels", [[4;5;6]])]],
     remainder_of [7] [1]).
Proof. reflexivity. Qed.

(** From a leftover whose columns have one length, a map over batches in
    step returns blocks of exactly [L] tokens in its three columns. *)
Lemma chunk_dataset_full_blocks L batches :
  0 < L ->
  Forall (fun b => lockstep (fst b) (snd b)) batches ->
  forall rids rmask,
    List.length rids = List.length rmask ->
    match chunk_dataset L batches (remainder_of rids rmask) with
    | (Ok results, _) =>
        exists bi bm bl,
          dataset_column "input_ids" results = Ok bi /\
          dataset_column "attention_mask" results = Ok bm /\
          dataset_column "labels" results = Ok bl /\
          Forall (fun b => len b = L) bi /\
          Forall (fun b => len b = L) bm /\
          Forall (fun b => len b = L) bl
    | (Raise e, _) => e = NameError "batch_chunk_length"
    end.
Proof.
  intros HL Hsteps.
  induction Hsteps as [|[ids mask] batches Hstep _ IH]; intros rids rmask Hrem.
  - rewrite chunk_dataset_nil. exists [], [], []. repeat split; constructor.
  - rewrite chunk_dataset_cons. cbn [fst snd] in *.
    assert (Hlen : List.length (rids ++ List.concat ids)
                   = List.length (rmask ++ List.concat mask)).
    { rewrite !length_app, (lockstep_concat Hstep). congruence. }
    destruct (chunk_cases ids mask rids rmask L)
      as [[_ ->]|[[HL0 _]|(Hle & _ & ->)]]; [reflexivity|lia|].
    set (t1 := rids ++ List.concat ids) in *.
    set (t2 := rmask ++ List.concat mask) in *.
    specialize (IH (rest_of L (len t1) t1) (rest_of L (len t1) t2)
                   (rest_of_lockstep L (len t1) t1 t2 Hlen)).
    destruct (chunk_dataset L batches _) as [[rs|e] g2]; [|exact IH].
    destruct IH as (bi & bm & bl & Hbi & Hbm & Hbl & Fi & Fm & Fl).
    exists (blocks_of L (len t1) t1 ++ bi), (blocks_of L (len t1) t2 ++ bm),
           (blocks_of L (len t1) t1 ++ bl).
    repeat split;
      try (cbn [dataset_column Dict.getitem String.eqb Ascii.eqb Bool.eqb obind];
           now rewrite ?Hbi, ?Hbm, ?Hbl);
      apply Forall_app; split; try assumption; apply blocks_of_full; lia.
Qed.

(** C8.  The cell maps [partial(chunk, chunk_length=1536)]: the keyword
    argument replaces the default 2048, and every block of the dataset
    built from tokenized batches (each sample's mask as long as its token
    ids) has 1536 tokens, under [input_ids], [attention_mask] and
    [labels].  A map that does not return has raised the [NameError] of a
    short batch. *)
Theorem lm_dataset_blocks_of_1536 batches :
  Forall (fun b => lockstep (fst b) (snd b)) batches ->
  chunk_length_default = 2048 /\
  (forall sample, call_chunk sample None = chunk sample 2048) /\
  (forall sample, partial_chunk sample = chunk sample 1536) /\
  match lm_dataset batches with
  | (Ok results, _) =>
      exists bi bm bl,
        dataset_column "input_ids" results = Ok bi /\
        dataset_column "attention_mask" results = Ok bm /\
        dataset_column "labels" results = Ok bl /\
        Forall (fun b => len b = 1536) bi /\
        Forall (fun b => len b = 1536) bm /\
        Forall (fun b => len b = 1536) bl
  | (Raise e, _) => e = NameError "batch_chunk_length"
  end.
Proof.
  intros Hsteps. repeat split.
  rewrite lm_dataset_chunk_dataset.
  apply (@chunk_dataset_full_blocks 1536 batches); [lia|assumption|reflexivity].
Qed.

Lemma lockstep_one_sample n : lockstep (fst (one_sample n)) (snd (one_sample n)).
Proof.
  repeat constructor. simpl. now rewrite length_map, length_seq, repeat_length.
Qed.

Lemma lm_dataset_blocks_of_1536_witness :
  Forall (fun b => lockstep (fst b) (snd b)) [one_sample 3075] /\
  chunk_length_default = 2048 /\
  (forall sample, call_chunk sample None = chunk sample 2048) /\
  (forall sample, partial_chunk sample = chunk sample 1536) /\
  match lm_dataset [one_sample 3075] with
  | (Ok results, _) =>
      exists bi bm bl,
        dataset_column "input_ids" results = Ok bi /\
        dataset_column "attention_mask" results = Ok bm /\
        dataset_column "labels" results = Ok bl /\
        Forall (fun b => len b = 1536) bi /\
        Forall (fun b => len b = 1536) bm /\
        Forall (fun b => len b = 1536) bl
  | (Raise e, _) => e = NameError "batch_chunk_length"
  end.
Proof.
  assert (Hsteps : Forall (fun b => lockstep (fst b) (snd b)) [one_sample 3075])
    by (repeat constructor; apply lockstep_one_sample).
  split; [exact Hsteps|].
  exact (@lm_dataset_blocks_of_1536 [one_sample 3075] Hsteps).
Defined.

(** With 3075 tokens the dataset has two rows and three tokens are left. *)
Example lm_dataset_two_rows :
  match lm_dataset [one_sample 3075] with
  | (Ok [result], g') =>
      Dict.getitem result "input_ids"
      = Ok [map Z.of_nat (seq 0 1536); map Z.of_nat (seq 1536 1536)] /\
      Dict.getitem result "labels" = Dict.getitem result "input_ids" /\
      g' = remainder_of [3072; 3073; 3074] [1; 1; 1]
  | _ => False
  end.
Proof. vm_compute. repeat split. Qed.

(** C6.  On one batch of two tokens the fold of the specification returns
    no block and keeps the two tokens, while the map of the cell raises and
    builds no dataset. *)
Theorem lm_dataset_short_batch_diverges :
  lm_dataset [([[1;2]], [[1;1]])]
  = (Raise (NameError "batch_chunk_length"), initial_globals) /\
  Reference.pack_dataset 1536 [([[1;2]], [[1;1]])]
  = Reference.Packed [] [] [] [1;2] [1;1].
Proof. split; reflexivity. Qed.

(** ** The cell against the specified fold, short batches apart *)

Lemma split_blocks_blocks_of L fuel :
  0 < L ->
  forall t : tokens,
    (List.length t <= fuel)%nat ->
    Reference.split_blocks fuel L t = (blocks_of L (len t) t, rest_of L (len t) t).
Proof.
  intros HL. induction fuel as [|fuel IH]; intros t Hfuel.
  - destruct t; [|simpl in Hfuel; lia].
    cbn [Reference.split_blocks].
    rewrite blocks_of_firstn_skipn, rest_of_skipn by (simpl; lia).
    change (len (@nil Z)) with 0. rewrite Zdiv_0_l. reflexivity.
  - cbn [Reference.split_blocks].
    rewrite blocks_of_firstn_skipn, rest_of_skipn by lia.
    destruct (Z.ltb_spec (len t) L) as [Hshort|Hlong].
    + rewrite Z.div_small by lia. reflexivity.
    + set (l := Z.to_nat L).
      assert (Hlen : len (skipn l t) = len t - L)
        by (rewrite length_skipn; unfold l; lia).
      rewrite IH by (rewrite length_skipn; unfold l; lia).
      rewrite blocks_of_firstn_skipn, rest_of_skipn by lia.
      rewrite Hlen. fold l.
      assert (Hq : Z.to_nat (len t / L) = S (Z.to_nat ((len t - L) / L))).
      { replace (len t) with ((len t - L) + 1 * L) at 1 by ring.
        rewrite Z.div_add by lia.
        assert (0 <= (len t - L) / L) by (apply Z.div_pos; lia). lia. }
      rewrite Hq. cbn [seq map]. rewrite <- seq_shift, map_map.
      apply f_equal2; [apply f_equal2; [reflexivity|]|].
      * apply map_ext. intros k. rewrite skipn_skipn. do 2 f_equal. lia.
      * rewrite skipn_skipn. f_equal. lia.
Qed.

Lemma pack_blocks_of L leftover batch :
  0 < L ->
  Reference.pack L leftover batch
  = (blocks_of L (len (leftover ++ List.concat batch)) (leftover ++ List.concat batch),
     rest_of L (len (leftover ++ List.concat batch)) (leftover ++ List.concat batch)).
Proof.
  intros HL. unfold Reference.pack. now apply split_blocks_blocks_of.
Qed.

(** A call that sees at least [L] token ids returns what the specified
    step returns, for columns of one length. *)
Lemma chunk_long_batch_packs ids mask rids rmask L :
  0 < L ->
  L <= len (rids ++ List.concat ids) ->
  List.length (rids ++ List.concat ids) = List.length (rmask ++ List.concat mask) ->
  chunk (encoding ids mask) L (remainder_of rids rmask)
  = (Ok [("input_ids", fst (Reference.pack L rids ids));
         ("attention_mask", fst (Reference.pack L rmask mask));
         ("labels", fst (Reference.pack L rids ids))],
     remainder_of (snd (Reference.pack L rids ids))
                  (snd (Reference.pack L rmask mask))).
Proof.
  intros HL Hle Hlen. rewrite !pack_blocks_of by assumption. cbn [fst snd].
  rewrite <- Hlen.
  destruct (chunk_cases ids mask rids rmask L)
    as [[Hshort _]|[[HL0 _]|(_ & _ & ->)]]; [lia|lia|reflexivity].
Qed.

Lemma step_blocks_of L acc (ids mask : column) :
  0 < L ->
  let t1 := Reference.leftover_input_ids acc ++ List.concat ids in
  let t2 := Reference.leftover_attention_mask acc ++ List.concat mask in
  List.length t1 = List.length t2 ->
  Reference.step L acc (ids, mask)
  = Reference.Packed
      (Reference.input_ids acc ++ blocks_of L (len t1) t1)
      (Reference.attention_mask acc ++ blocks_of L (len t1) t2)
      (Reference.labels acc ++ blocks_of L (len t1) t1)
      (rest_of L (len t1) t1) (rest_of L (len t1) t2).
Proof.
  intros HL t1 t2 Hlen. unfold Reference.step. cbn [fst snd].
  rewrite !pack_blocks_of by assumption. fold t1 t2. now rewrite <- Hlen.
Qed.

Lemma chunk_dataset_refines_from L batches :
  0 < L ->
  Forall (fun b => lockstep (fst b) (snd b)) batches ->
  forall acc,
    List.length (Reference.leftover_input_ids acc)
    = List.length (Reference.leftover_attention_mask acc) ->
    match chunk_dataset L batches
            (remainder_of (Reference.leftover_input_ids acc)
                          (Reference.leftover_attention_mask acc)) with
    | (Ok results, g') =>
        let p := fold_left (Reference.step L) batches acc in
        exists bi bm bl,
          dataset_column "input_ids" results = Ok bi /\
          dataset_column "attention_mask" results = Ok bm /\
          dataset_column "labels" results = Ok bl /\
          Reference.input_ids p = Reference.input_ids acc ++ bi /\
          Reference.attention_mask p = Reference.attention_mask acc ++ bm /\
          Reference.labels p = Reference.labels acc ++ bl /\
          g' = remainder_of (Reference.leftover_input_ids p)
                            (Reference.leftover_attention_mask p)
    | (Raise e, _) => e = NameError "batch_chunk_length"
    end.
Proof.
  intros HL Hsteps.
  induction Hsteps as [|[ids mask] batches Hstep _ IH]; intros acc Hacc.
  - rewrite chunk_dataset_nil. exists [], [], [].
    cbn. rewrite !app_nil_r. now destruct acc.
  - rewrite chunk_dataset_cons. cbn [fst snd fold_left] in *.
    assert (Hlen : List.length (Reference.leftover_input_ids acc ++ List.concat ids)
                   = List.length (Reference.leftover_attention_mask acc
                                  ++ List.concat mask)).
    { rewrite !length_app, (lockstep_concat Hstep). congruence. }
    rewrite (step_blocks_of acc ids mask HL Hlen).
    destruct (chunk_cases ids mask (Reference.leftover_input_ids acc)
                          (Reference.leftover_attention_mask acc) L)
      as [[_ ->]|[[HL0 _]|(Hle & _ & ->)]]; [reflexivity|lia|].
    set (t1 := Reference.leftover_input_ids acc ++ List.concat ids) in *.
    set (t2 := Reference.leftover_attention_mask acc ++ List.concat mask) in *.
    set (acc1 := Reference.Packed _ _ _ _ _).
    specialize (IH acc1 (rest_of_lockstep L (len t1) t1 t2 Hlen)).
    cbn [acc1 Reference.leftover_input_ids Reference.leftover_attention_mask] in IH.
    destruct (chunk_dataset L batches _) as [[rs|e] g2]; [|exact IH].
    cbv zeta in IH |- *.
    destruct IH as (bi & bm & bl & Hbi & Hbm & Hbl & Hi & Hm & Hl & ->).
    exists (blocks_of L (len t1) t1 ++ bi), (blocks_of L (len t1) t2 ++ bm),
           (blocks_of L (len t1) t1 ++ bl).
    repeat split;
      try (cbn [dataset_column Dict.getitem String.eqb Ascii.eqb Bool.eqb obind];
           now rewrite ?Hbi, ?Hbm, ?Hbl).
    + rewrite Hi. cbn. now rewrite <- app_assoc.
    + rewrite Hm. cbn. now rewrite <- app_assoc.
    + rewrite Hl. cbn. now rewrite <- app_assoc.
Qed.

(** Whenever the map of the cell returns on tokenized batches, it has built
    the dataset and the leftover of the specified fold. *)
Lemma chunk_dataset_refines L batches :
  0 < L ->
  Forall (fun b => lockstep (fst b) (snd b)) batches ->
  match chunk_dataset L batches initial_globals with
  | (Ok results, g') =>
      let p := Reference.pack_dataset L batches in
      dataset_column "input_ids" results = Ok (Reference.input_ids p) /\
      dataset_column "attention_mask" results = Ok (Reference.attention_mask p) /\
      dataset_column "labels" results = Ok (Reference.labels p) /\
      g' = remainder_of (Reference.leftover_input_ids p)
                        (Reference.leftover_attention_mask p)
  | (Raise e, _) => e = NameError "batch_chunk_length"
  end.
Proof.
  intros HL Hsteps.
  pose proof (@chunk_dataset_refines_from L batches HL Hsteps
                (Reference.Packed [] [] [] [] []) eq_refl) as H.
  cbn [Reference.leftover_input_ids Reference.leftover_attention_mask
       Reference.input_ids Reference.attention_mask Reference.labels] in H.
  change (remainder_of [] []) with initial_globals in H.
  destruct (chunk_dataset L batches initial_globals) as [[rs|e] g2]; [|exact H].
  cbv zeta in *. destruct H as (bi & bm & bl & Hbi & Hbm & Hbl & Hi & Hm & Hl & ->).
  unfold Reference.pack_dataset. rewrite Hi, Hm, Hl. cbn [app]. auto.
Qed.

(** ** More on one call: lengths that are not block lengths *)

(** With [chunk_length = 0] every call on a tokenized batch raises
    [ZeroDivisionError]: the comparison holds for any number of tokens and
    the division is attempted.  [remainder] keeps its value. *)
Theorem chunk_zero_length_raises ids mask rids rmask :
  chunk (encoding ids mask) 0 (remainder_of rids rmask)
  = (Raise ZeroDivisionError, remainder_of rids rmask).
Proof.
  rewrite chunk_encoding. cbv zeta.
  destruct (Z.leb_spec 0 (len (rids ++ List.concat ids))) as [_|Hneg]; [|lia].
  reflexivity.
Qed.

Lemma full_length_negative L total :
  L < 0 -> 0 <= total -> total <= full_length L total.
Proof.
  intros HL Htotal. unfold full_length.
  pose proof (Z.div_mod total L ltac:(lia)) as Hdm.
  pose proof (Z.mod_neg_bound total L HL) as Hm. nia.
Qed.

Lemma blocks_of_negative L total (t : tokens) :
  L < 0 -> 0 <= total -> blocks_of L total t = [].
Proof.
  intros HL Htotal. unfold blocks_of, range_length.
  pose proof (full_length_negative HL Htotal) as Hfl.
  destruct (Z.ltb_spec 0 L) as [|_]; [lia|].
  destruct (Z.ltb_spec (full_length L total) 0) as [|_]; [lia|].
  reflexivity.
Qed.

Lemma rest_of_negative L total (t : tokens) :
  L < 0 -> 0 <= total -> len t <= total -> rest_of L total t = [].
Proof.
  intros HL Htotal Ht. unfold rest_of.
  pose proof (full_length_negative HL Htotal) as Hfl.
  rewrite slice_from by lia. apply skipn_all2. lia.
Qed.

(** With a negative [chunk_length] a call on a tokenized batch whose mask
    tokens are as many as its token ids returns no block and leaves an
    empty [remainder]: the leftover and the batch are lost. *)
Theorem chunk_negative_length_loses_tokens ids mask rids rmask L :
  L < 0 ->
  List.length (rmask ++ List.concat mask) = List.length (rids ++ List.concat ids) ->
  chunk (encoding ids mask) L (remainder_of rids rmask)
  = (Ok [("input_ids", []); ("attention_mask", []); ("labels", [])],
     remainder_of [] []).
Proof.
  intros HL Hlen.
  destruct (chunk_cases ids mask rids rmask L)
    as [[Hshort _]|[[HL0 _]|(_ & _ & ->)]]; [lia|lia|].
  rewrite !blocks_of_negative, !rest_of_negative by lia. reflexivity.
Qed.

Lemma chunk_negative_length_loses_tokens_witness :
  -2 < 0 /\
  List.length ([1] ++ List.concat [[1;1];[1;1;1]])
  = List.length ([9] ++ List.concat [[1;2];[3;4;5]]) /\
  chunk (encoding [[1;2];[3;4;5]] [[1;1];[1;1;1]]) (-2) (remainder_of [9] [1])
  = (Ok [("input_ids", []); ("attention_mask", []); ("labels", [])],
     remainder_of [] []).
Proof.
  split; [lia|]. split; [reflexivity|].
  apply (@chunk_negative_length_loses_tokens
           [[1;2];[3;4;5]] [[1;1];[1;1;1]] [9] [1] (-2)); [lia|reflexivity].
Defined.

(** For a positive [chunk_length], a call on a tokenized batch returns
    exactly when the leftover and the batch hold at least [chunk_length]
    token ids; it then returns [total // chunk_length] blocks and keeps
    [total % chunk_length] token ids, [total] being their number. *)
Theorem chunk_block_count ids mask rids rmask L :
  0 < L ->
  let total := len rids + len (List.concat ids) in
  match chunk (encoding ids mask) L (remainder_of rids rmask) with
  | (Ok result, g') =>
      L <= total /\
      exists bi ri rm,
        Dict.getitem result "input_ids" = Ok bi /\
        g' = remainder_of ri rm /\
        len bi = total / L /\
        len ri = total mod L
  | (Raise _, _) => total < L
  end.
Proof.
  intros HL total.
  assert (Htotal : len (rids ++ List.concat ids) = total)
    by (unfold total; rewrite length_app; lia).
  destruct (chunk_cases ids mask rids rmask L)
    as [[Hshort ->]|[[HL0 _]|(Hle & _ & ->)]]; [lia|lia|].
  split; [lia|]. do 3 eexists. repeat split; try reflexivity.
  - rewrite length_blocks_of by lia. now rewrite Htotal.
  - rewrite length_rest_of by lia. now rewrite Htotal.
Qed.

Lemma chunk_block_count_witness :
  0 < 4 /\
  let total := len [9] + len (List.concat [[1;2];[3;4;5]]) in
  match chunk (encoding [[1;2];[3;4;5]] [[1;1];[1;1;1]]) 4 (remainder_of [9] [1]) with
  | (Ok result, g') =>
      4 <= total /\
      exists bi ri rm,
        Dict.getitem result "input_ids" = Ok bi /\
        g' = remainder_of ri rm /\
        len bi = total / 4 /\
        len ri = total mod 4
  | (Raise _, _) => total < 4
  end.
Proof.
  split; [lia|].
  apply (@chunk_block_count [[1;2];[3;4;5]] [[1;1];[1;1;1]] [9] [1] 4). lia.
Defined.

(** ** More on one call: batches of another shape *)

Lemma getitem_present {V : Type} (d : Dict.t V) k :
  In k (Dict.keys d) -> exists v, Dict.getitem d k = Ok v.
Proof.
  induction d as [|[k' v'] d IH]; simpl; [contradiction|].
  intros [->|Hin].
  - rewrite String.eqb_refl. eauto.
  - destruct (String.eqb k k'); eauto.
Qed.

Lemma getitem_absent {V : Type} (d : Dict.t V) k :
  ~ In k (Dict.keys d) -> Dict.getitem d k = Raise (KeyError k).
Proof.
  induction d as [|[k' v'] d IH]; simpl; [reflexivity|].
  intros Hnot. destruct (String.eqb_spec k k') as [->|_].
  - exfalso. apply Hnot. now left.
  - apply IH. intros Hin. apply Hnot. now right.
Qed.

Lemma keys_setitem {V : Type} (d : Dict.t V) k v k' :
  In k' (Dict.keys (Dict.setitem d k v)) <-> k' = k \/ In k' (Dict.keys d).
Proof.
  induction d as [|[k0 v0] d IH]; simpl.
  - intuition congruence.
  - destruct (String.eqb_spec k k0) as [->|Hne]; simpl.
    + intuition congruence.
    + rewrite IH. intuition congruence.
Qed.

(** A comprehension whose expression never raises returns a dictionary
    with the keys it was given. *)
Lemma comprehension_returns {V W : Type} (f : string -> V -> outcome W) items :
  (forall k v, In (k, v) items -> exists w, f k v = Ok w) ->
  forall acc,
  exists d,
    Dict.comprehension f items acc = Ok d /\
    forall k, In k (Dict.keys d) <-> In k (Dict.keys acc) \/ In k (Dict.keys items).
Proof.
  induction items as [|[k v] items IH]; intros Hf acc; simpl.
  - exists acc. split; [reflexivity|]. intuition.
  - destruct (Hf k v (or_introl eq_refl)) as [w ->].
    destruct (IH (fun k' v' H => Hf k' v' (or_intror H)) (Dict.setitem acc k w))
      as (d & -> & Hkeys).
    exists d. split; [reflexivity|]. intros k'.
    rewrite Hkeys, keys_setitem. intuition congruence.
Qed.

(** A comprehension that looks every key up in [rem] raises [KeyError] for
    the first key that [rem] does not hold. *)
Lemma comprehension_lookup_raises {V W X : Type}
      (rem : Dict.t V) (d : Dict.t W) (g : V -> W -> X) items :
  (forall k, In k (Dict.keys items) -> In k (Dict.keys d)) ->
  (exists k, In k (Dict.keys items) /\ ~ In k (Dict.keys rem)) ->
  forall acc,
  exists k,
    Dict.comprehension
      (fun k (_ : W) =>
         obind (Dict.getitem rem k) (fun r =>
         obind (Dict.getitem d k) (fun c => Ok (g r c))))
      items acc = Raise (KeyError k) /\
    In k (Dict.keys items) /\ ~ In k (Dict.keys rem).
Proof.
  induction items as [|[k v] items IH]; intros Hd (k0 & Hin & Hnot) acc.
  - contradiction.
  - cbn [Dict.comprehension].
    destruct (in_dec string_dec k (Dict.keys rem)) as [Hk|Hk].
    + destruct (getitem_present rem k Hk) as [r ->].
      destruct (getitem_present d k (Hd k (or_introl eq_refl))) as [c ->].
      cbn [obind].
      destruct (IH (fun k' H => Hd k' (or_intror H))) with (acc := Dict.setitem acc k (g r c))
        as (k' & -> & Hin' & Hnot').
      * exists k0. split; [|assumption].
        destruct Hin as [<-|Hin]; [contradiction|assumption].
      * exists k'. split; [reflexivity|]. split; [now right|assumption].
    + rewrite (getitem_absent rem k Hk). cbn [obind].
      exists k. split; [reflexivity|]. split; [now left|assumption].
Qed.

(** A batch with a column that [remainder] does not hold, such as the
    [token_type_ids] of another tokenizer, makes the call raise [KeyError]
    for such a column, whatever [chunk_length] is; [remainder] keeps its
    value. *)
Theorem chunk_missing_column_raises sample L g k :
  In k (Dict.keys sample) ->
  ~ In k (Dict.keys (remainder g)) ->
  exists k',
    chunk sample L g = (Raise (KeyError k'), g) /\
    In k' (Dict.keys sample) /\ ~ In k' (Dict.keys (remainder g)).
Proof.
  intros Hin Hnot. unfold chunk, bind, eval, get_remainder.
  destruct (@comprehension_returns column (list Z)
              (fun k (_ : column) =>
                 obind (Dict.getitem sample k) (fun c => Ok (List.concat c)))
              sample) with (acc := @nil (string * list Z)) as (d & -> & Hkeys).
  { intros k0 v0 H0.
    destruct (getitem_present sample k0) as [c ->].
    - apply in_map_iff. exists (k0, v0). auto.
    - cbn. eauto. }
  destruct (@comprehension_lookup_raises tokens (list Z) (list Z)
              (remainder g) d (@app Z) d)
    with (acc := @nil (string * list Z)) as (k' & -> & Hin' & Hnot').
  - auto.
  - exists k. split; [|assumption]. apply Hkeys. now right.
  - exists k'. split; [reflexivity|]. split; [|assumption].
    apply Hkeys in Hin'. destruct Hin' as [[]|]; assumption.
Qed.

Lemma chunk_missing_column_raises_witness :
  In "token_type_ids"
     (Dict.keys [("input_ids", [[1;2;3]]); ("token_type_ids", [[0;0;0]]);
                 ("attention_mask", [[1;1;1]])]) /\
  ~ In "token_type_ids" (Dict.keys (remainder initial_globals)) /\
  exists k',
    chunk [("input_ids", [[1;2;3]]); ("token_type_ids", [[0;0;0]]);
           ("attention_mask", [[1;1;1]])] 3 initial_globals
    = (Raise (KeyError k'), initial_globals) /\
    In k' (Dict.keys [("input_ids", [[1;2;3]]); ("token_type_ids", [[0;0;0]]);
                      ("attention_mask", [[1;1;1]])]) /\
    ~ In k' (Dict.keys (remainder initial_globals)).
Proof.
  assert (Hin : In "token_type_ids"
                   (Dict.keys [("input_ids", [[1;2;3]]); ("token_type_ids", [[0;0;0]]);
                               ("attention_mask", [[1;1;1]])]))
    by (simpl; auto).
  assert (Hnot : ~ In "token_type_ids" (Dict.keys (remainder initial_globals)))
    by (simpl; intros [H|[H|[]]]; discriminate H).
  split; [exact Hin|]. split; [exact Hnot|].
  exact (@chunk_missing_column_raises _ 3 initial_globals _ Hin Hnot).
Defined.

(** A call is not undone when it raises.  On a batch that has the column
    [attention_mask] only, with at least [chunk_length] tokens at hand, the
    blocks are cut and [remainder] is replaced before [result["input_ids"]]
    raises [KeyError]: the new [remainder] has lost its entry [input_ids],
    with the token ids that were left over, and every later call on a
    tokenized batch raises [KeyError] in its turn. *)
Theorem chunk_without_input_ids mask rids rmask L :
  0 < L ->
  L <= len rmask + len (List.concat mask) ->
  let t := rmask ++ List.concat mask in
  let g' := Globals [("attention_mask", rest_of L (len t) t)] in
  chunk [("attention_mask", mask)] L (remainder_of rids rmask)
  = (Raise (KeyError "input_ids"), g') /\
  forall ids' mask' L',
    chunk (encoding ids' mask') L' g' = (Raise (KeyError "input_ids"), g').
Proof.
  intros HL Hle t g'. split; [|reflexivity].
  unfold chunk, bind, eval, get_remainder, set_remainder, ret.
  cbn [remainder_of remainder Dict.comprehension Dict.getitem
       Dict.setitem Dict.keys map fst obind String.eqb Ascii.eqb Bool.eqb].
  fold t.
  assert (Ht : len t = len rmask + len (List.concat mask))
    by (unfold t; rewrite length_app; lia).
  destruct (Z.leb_spec L (len t)) as [_|Hlt]; [|lia].
  unfold floordiv, range.
  destruct (Z.eqb_spec L 0) as [|_]; [lia|]. reflexivity.
Qed.

Lemma chunk_without_input_ids_witness :
  0 < 2 /\
  2 <= len [1] + len (List.concat [[1;1]]) /\
  let t := [1] ++ List.concat [[1;1]] in
  let g' := Globals [("attention_mask", rest_of 2 (len t) t)] in
  chunk [("attention_mask", [[1;1]])] 2 (remainder_of [9] [1])
  = (Raise (KeyError "input_ids"), g') /\
  forall ids' mask' L',
    chunk (encoding ids' mask') L' g' = (Raise (KeyError "input_ids"), g').
Proof.
  split; [lia|]. split; [simpl; lia|].
  apply (@chunk_without_input_ids [[1;1]] [9] [1] 2); simpl; lia.
Defined.

(** ** More on the map over the batches *)

Lemma length_concat_full (L : Z) (blocks : list tokens) :
  Forall (fun b => len b = L) blocks ->
  len (List.concat blocks) = L * len blocks.
Proof.
  induction 1 as [|b blocks Hb _ IH]; [simpl; lia|].
  cbn [List.concat List.length]. rewrite length_app. lia.
Qed.

(** Blocks of [L] tokens followed by fewer than [L] tokens: their numbers
    are the quotient and the rest of the division by [L]. *)
Lemma blocks_count (L : Z) (blocks : list tokens) (rest s : tokens) :
  0 < L ->
  List.concat blocks ++ rest = s ->
  Forall (fun b => len b = L) blocks ->
  len rest < L ->
  len blocks = len s / L /\ len rest = len s mod L.
Proof.
  intros HL <- Hfull Hrest. rewrite length_app.
  pose proof (length_concat_full Hfull) as Hc.
  replace (len (List.concat blocks ++ rest))
    with (len blocks * L + len rest) by (rewrite length_app; lia).
  rewrite Nat2Z.inj_add, Hc.
  replace (L * len blocks + len rest) with (len rest + len blocks * L) by ring.
  rewrite Z.div_add, Z.mod_add by lia.
  rewrite Z.div_small, Z.mod_small by lia. lia.
Qed.

(** What the map keeps true of the token ids, whatever the masks are. *)
Lemma chunk_dataset_input_ids L batches :
  0 < L ->
  forall rids rmask,
    len rids < L ->
    match chunk_dataset L batches (remainder_of rids rmask) with
    | (Ok results, g') =>
        exists bi bm ri rm,
          dataset_column "input_ids" results = Ok bi /\
          dataset_column "attention_mask" results = Ok bm /\
          dataset_column "labels" results = Ok bi /\
          g' = remainder_of ri rm /\
          List.length bm = List.length bi /\
          List.concat bi ++ ri = rids ++ stream (map fst batches) /\
          Forall (fun b => len b = L) bi /\
          len ri < L
    | (Raise e, _) => e = NameError "batch_chunk_length"
    end.
Proof.
  intros HL. induction batches as [|[ids mask] batches IH]; intros rids rmask Hr.
  - rewrite chunk_dataset_nil. exists [], [], rids, rmask.
    repeat split; try constructor; try assumption. now rewrite app_nil_r.
  - rewrite chunk_dataset_cons. cbn [fst snd map].
    destruct (chunk_cases ids mask rids rmask L)
      as [[_ ->]|[[HL0 _]|(Hle & _ & ->)]]; [reflexivity|lia|].
    set (t1 := rids ++ List.concat ids) in *.
    set (t2 := rmask ++ List.concat mask) in *.
    assert (Hrest : len (rest_of L (len t1) t1) < L)
      by (apply rest_of_short; lia).
    specialize (IH (rest_of L (len t1) t1) (rest_of L (len t1) t2) Hrest).
    destruct (chunk_dataset L batches _) as [[rs|e] g2]; [|exact IH].
    destruct IH as (bi & bm & ri & rm & Hbi & Hbm & Hbl & -> & Hn & Hi & Fi & Hri).
    exists (blocks_of L (len t1) t1 ++ bi), (blocks_of L (len t1) t2 ++ bm), ri, rm.
    repeat split;
      try (cbn [dataset_column Dict.getitem String.eqb Ascii.eqb Bool.eqb obind];
           now rewrite ?Hbi, ?Hbm, ?Hbl); try assumption.
    + rewrite !length_app, Hn. unfold blocks_of. now rewrite !length_map.
    + rewrite concat_app, <- app_assoc, Hi, app_assoc, stream_cons.
      rewrite blocks_rest_partition by lia. unfold t1. now rewrite <- app_assoc.
    + apply Forall_app. split; [apply blocks_of_full; lia|assumption].
Qed.

(** When the map over tokenized batches returns, for a positive
    [chunk_length], the dataset has [N // chunk_length] rows in each of its
    three columns, [N] being the number of token ids of all the batches,
    and [N % chunk_length] token ids stay in [remainder], in no row. *)
Theorem chunk_dataset_row_count L batches :
  0 < L ->
  let N := len (stream (map fst batches)) in
  match chunk_dataset L batches initial_globals with
  | (Ok results, g') =>
      exists bi bm bl ri rm,
        dataset_column "input_ids" results = Ok bi /\
        dataset_column "attention_mask" results = Ok bm /\
        dataset_column "labels" results = Ok bl /\
        g' = remainder_of ri rm /\
        len bi = N / L /\ len bm = N / L /\ len bl = N / L /\
        len ri = N mod L
  | (Raise e, _) => e = NameError "batch_chunk_length"
  end.
Proof.
  intros HL N.
  pose proof (@chunk_dataset_input_ids L batches HL [] [] HL) as H.
  change (remainder_of [] []) with initial_globals in H.
  destruct (chunk_dataset L batches initial_globals) as [[rs|e] g2]; [|exact H].
  destruct H as (bi & bm & ri & rm & Hbi & Hbm & Hbl & -> & Hn & Hi & Fi & Hri).
  destruct (@blocks_count L bi ri _ HL Hi Fi Hri) as [Hq Hm].
  exists bi, bm, bi, ri, rm. cbn [app] in Hq, Hm. fold N in Hq, Hm.
  repeat split; try assumption. now rewrite Hn.
Qed.

Lemma chunk_dataset_row_count_witness :
  0 < 3 /\
  let N := len (stream (map fst [([[1;2];[3;4]], [[1;1];[1;1]]);
                                  ([[5;6;7]], [[1;1;1]])])) in
  match chunk_dataset 3 [([[1;2];[3;4]], [[1;1];[1;1]]); ([[5;6;7]], [[1;1;1]])]
                      initial_globals with
  | (Ok results, g') =>
      exists bi bm bl ri rm,
        dataset_column "input_ids" results = Ok bi /\
        dataset_column "attention_mask" results = Ok bm /\
        dataset_column "labels" results = Ok bl /\
        g' = remainder_of ri rm /\
        len bi = N / 3 /\ len bm = N / 3 /\ len bl = N / 3 /\
        len ri = N mod 3
  | (Raise e, _) => e = NameError "batch_chunk_length"
  end.
Proof.
  split; [lia|].
  apply (@chunk_dataset_row_count 3
           [([[1;2];[3;4]], [[1;1];[1;1]]); ([[5;6;7]], [[1;1;1]])]).
  lia.
Defined.

(** The map returns when every batch holds at least [chunk_length] token
    ids of its own, whatever was left over before. *)
Theorem chunk_dataset_returns L batches rids rmask :
  0 < L ->
  Forall (fun b => L <= len (List.concat (fst b))) batches ->
  exists results g',
    chunk_dataset L batches (remainder_of rids rmask) = (Ok results, g').
Proof.
  intros HL Hlong. revert rids rmask.
  induction Hlong as [|[ids mask] batches Hb _ IH]; intros rids rmask.
  - rewrite chunk_dataset_nil. eauto.
  - rewrite chunk_dataset_cons. cbn [fst snd] in *.
    destruct (chunk_cases ids mask rids rmask L)
      as [[Hshort _]|[[HL0 _]|(_ & _ & ->)]];
      [rewrite length_app in Hshort; lia|lia|].
    destruct (IH (rest_of L (len (rids ++ List.concat ids)) (rids ++ List.concat ids))
                 (rest_of L (len (rids ++ List.concat ids)) (rmask ++ List.concat mask)))
      as (rs & g2 & ->).
    eauto.
Qed.

Lemma chunk_dataset_returns_witness :
  0 < 3 /\
  Forall (fun b => 3 <= len (List.concat (fst b)))
         [([[1;2];[3;4]], [[1;1];[1;1]]); ([[5;6;7]], [[1;1;1]])] /\
  exists results g',
    chunk_dataset 3 [([[1;2];[3;4]], [[1;1];[1;1]]); ([[5;6;7]], [[1;1;1]])]
                  (remainder_of [9] [1])
    = (Ok results, g').
Proof.
  assert (Hlong : Forall (fun b => 3 <= len (List.concat (fst b)))
                         [([[1;2];[3;4]], [[1;1];[1;1]]); ([[5;6;7]], [[1;1;1]])])
    by (repeat constructor; simpl; lia).
  split; [lia|]. split; [exact Hlong|].
  apply (@chunk_dataset_returns 3 _ [9] [1]); [lia|exact Hlong].
Defined.

Lemma app_inv_length {A : Type} (x y a b : list A) :
  List.length x = List.length y -> x ++ a = y ++ b -> x = y /\ a = b.
Proof.
  revert y. induction x as [|c x IH]; intros [|d y] Hlen Heq;
    try discriminate Hlen.
  - split; [reflexivity|exact Heq].
  - injection Hlen as Hlen. injection Heq as -> Heq.
    destruct (IH y Hlen Heq) as [-> ->]. split; reflexivity.
Qed.

(** A sequence is cut into blocks of [L] tokens and a shorter rest in one
    way only. *)
Lemma blocks_unique (L : Z) (b1 b2 : list tokens) (r1 r2 : tokens) :
  0 < L ->
  Forall (fun b => len b = L) b1 ->
  Forall (fun b => len b = L) b2 ->
  len r1 < L -> len r2 < L ->
  List.concat b1 ++ r1 = List.concat b2 ++ r2 ->
  b1 = b2 /\ r1 = r2.
Proof.
  intros HL F1. revert b2.
  induction F1 as [|x b1 Hx _ IH]; intros b2 F2 H1 H2 Heq.
  - destruct F2 as [|y b2 Hy _]; [split; [reflexivity|exact Heq]|].
    exfalso. cbn in Heq. rewrite Heq, <- app_assoc, length_app in H1. lia.
  - destruct F2 as [|y b2 Hy F2].
    + exfalso. cbn in Heq. rewrite <- Heq, <- app_assoc, length_app in H2. lia.
    + cbn [List.concat] in Heq. rewrite <- !app_assoc in Heq.
      destruct (@app_inv_length _ x y _ _ ltac:(lia) Heq) as [-> Htl].
      destruct (IH b2 F2 H1 H2 Htl) as [-> ->]. split; reflexivity.
Qed.

(** What the map keeps true of the masks of tokenized batches. *)
Lemma chunk_dataset_attention_mask L batches :
  0 < L ->
  Forall (fun b => lockstep (fst b) (snd b)) batches ->
  forall rids rmask,
    List.length rids = List.length rmask ->
    len rmask < L ->
    match chunk_dataset L batches (remainder_of rids rmask) with
    | (Ok results, g') =>
        exists bm ri rm,
          dataset_column "attention_mask" results = Ok bm /\
          g' = remainder_of ri rm /\
          List.concat bm ++ rm = rmask ++ stream (map snd batches) /\
          Forall (fun b => len b = L) bm /\
          len rm < L
    | (Raise e, _) => e = NameError "batch_chunk_length"
    end.
Proof.
  intros HL Hsteps.
  induction Hsteps as [|[ids mask] batches Hstep _ IH]; intros rids rmask Hrem Hr.
  - rewrite chunk_dataset_nil. exists [], rids, rmask.
    repeat split; try constructor; try assumption. now rewrite app_nil_r.
  - rewrite chunk_dataset_cons. cbn [fst snd map] in *.
    assert (Hlen : List.length (rids ++ List.concat ids)
                   = List.length (rmask ++ List.concat mask)).
    { rewrite !length_app, (lockstep_concat Hstep). congruence. }
    destruct (chunk_cases ids mask rids rmask L)
      as [[_ ->]|[[HL0 _]|(Hle & _ & ->)]]; [reflexivity|lia|].
    set (t1 := rids ++ List.concat ids) in *.
    set (t2 := rmask ++ List.concat mask) in *.
    assert (Hrest : len (rest_of L (len t1) t2) < L)
      by (apply rest_of_short; lia).
    specialize (IH (rest_of L (len t1) t1) (rest_of L (len t1) t2)
                   (rest_of_lockstep L (len t1) t1 t2 Hlen) Hrest).
    destruct (chunk_dataset L batches _) as [[rs|e] g2]; [|exact IH].
    destruct IH as (bm & ri & rm & Hbm & -> & Hm & Fm & Hrm).
    exists (blocks_of L (len t1) t2 ++ bm), ri, rm.
    repeat split; try assumption.
    + cbn [dataset_column Dict.getitem String.eqb Ascii.eqb Bool.eqb obind].
      now rewrite Hbm.
    + rewrite concat_app, <- app_assoc, Hm, app_assoc, stream_cons.
      rewrite blocks_rest_partition by lia. unfold t2. now rewrite <- app_assoc.
    + apply Forall_app. split; [apply blocks_of_full; lia|assumption].
Qed.

(** The dataset does not depend on how the samples are grouped into
    batches.  For a positive [chunk_length], two lists of tokenized batches
    with the same token ids and the same masks in the same order, when the
    map returns on both, give the same three columns and leave the same
    [remainder]. *)
Theorem chunk_dataset_batching L batches1 batches2 :
  0 < L ->
  Forall (fun b => lockstep (fst b) (snd b)) batches1 ->
  Forall (fun b => lockstep (fst b) (snd b)) batches2 ->
  stream (map fst batches1) = stream (map fst batches2) ->
  stream (map snd batches1) = stream (map snd batches2) ->
  match chunk_dataset L batches1 initial_globals,
        chunk_dataset L batches2 initial_globals with
  | (Ok results1, g1), (Ok results2, g2) =>
      dataset_column "input_ids" results1 = dataset_column "input_ids" results2 /\
      dataset_column "attention_mask" results1
      = dataset_column "attention_mask" results2 /\
      dataset_column "labels" results1 = dataset_column "labels" results2 /\
      g1 = g2
  | _, _ => True
  end.
Proof.
  intros HL Hs1 Hs2 Hids Hmask.
  pose proof (@chunk_dataset_input_ids L batches1 HL [] [] HL) as I1.
  pose proof (@chunk_dataset_input_ids L batches2 HL [] [] HL) as I2.
  pose proof (@chunk_dataset_attention_mask L batches1 HL Hs1 [] [] eq_refl HL) as M1.
  pose proof (@chunk_dataset_attention_mask L batches2 HL Hs2 [] [] eq_refl HL) as M2.
  change (remainder_of [] []) with initial_globals in *.
  destruct (chunk_dataset L batches1 initial_globals) as [[rs1|e1] g1]; [|exact I].
  destruct (chunk_dataset L batches2 initial_globals) as [[rs2|e2] g2]; [|exact I].
  destruct I1 as (bi1 & bm1 & ri1 & rm1 & Hbi1 & Hbm1 & Hbl1 & -> & _ & Hi1 & Fi1 & Hri1).
  destruct I2 as (bi2 & bm2 & ri2 & rm2 & Hbi2 & Hbm2 & Hbl2 & -> & _ & Hi2 & Fi2 & Hri2).
  destruct M1 as (bm1' & ri1' & rm1' & Hbm1' & E1 & Hm1 & Fm1 & Hrm1).
  destruct M2 as (bm2' & ri2' & rm2' & Hbm2' & E2 & Hm2 & Fm2 & Hrm2).
  injection E1 as <- <-. injection E2 as <- <-.
  rewrite Hbm1 in Hbm1'. injection Hbm1' as <-.
  rewrite Hbm2 in Hbm2'. injection Hbm2' as <-.
  cbn [app] in *.
  destruct (@blocks_unique L bi1 bi2 ri1 ri2) as [-> ->]; try assumption;
    [congruence|].
  destruct (@blocks_unique L bm1 bm2 rm1 rm2) as [-> ->]; try assumption;
    [congruence|].
  rewrite Hbi1, Hbi2, Hbm1, Hbm2, Hbl1, Hbl2. repeat split.
Qed.

Lemma chunk_dataset_batching_witness :
  let batches1 := [([[1;2];[3;4]], [[1;1];[1;1]]); ([[5;6;7]], [[1;1;1]])] in
  let batches2 := [([[1;2];[3;4];[5;6;7]], [[1;1];[1;1];[1;1;1]])] in
  0 < 3 /\
  Forall (fun b => lockstep (fst b) (snd b)) batches1 /\
  Forall (fun b => lockstep (fst b) (snd b)) batches2 /\
  stream (map fst batches1) = stream (map fst batches2) /\
  stream (map snd batches1) = stream (map snd batches2) /\
  match chunk_dataset 3 batches1 initial_globals,
        chunk_dataset 3 batches2 initial_globals with
  | (Ok results1, g1), (Ok results2, g2) =>
      dataset_column "input_ids" results1 = dataset_column "input_ids" results2 /\
      dataset_column "attention_mask" results1
      = dataset_column "attention_mask" results2 /\
      dataset_column "labels" results1 = dataset_column "labels" results2 /\
      g1 = g2
  | _, _ => True
  end.
Proof.
  intros batches1 batches2.
  assert (H1 : Forall (fun b => lockstep (fst b) (snd b)) batches1)
    by (repeat constructor).
  assert (H2 : Forall (fun b => lockstep (fst b) (snd b)) batches2)
    by (repeat constructor).
  split; [lia|]. split; [exact H1|]. split; [exact H2|].
  split; [reflexivity|]. split; [reflexivity|].
  apply (@chunk_dataset_batching 3 batches1 batches2);
    [lia|exact H1|exact H2|reflexivity|reflexivity].
Defined.

(** The [j]-th of blocks of [l] tokens is the [j]-th run of [l] tokens of
    their concatenation. *)
Lemma nth_block (l : nat) (blocks : list tokens) (rest : tokens) :
  Forall (fun b => List.length b = l) blocks ->
  forall j,
    (j < List.length blocks)%nat ->
    nth j blocks [] = firstn l (skipn (j * l) (List.concat blocks ++ rest)).
Proof.
  induction 1 as [|b blocks Hb _ IH]; intros j Hj; [simpl in Hj; lia|].
  cbn [List.concat]. rewrite <- app_assoc. destruct j as [|j].
  - cbn [nth Nat.mul skipn]. rewrite firstn_app, Hb, Nat.sub_diag.
    cbn [firstn]. rewrite app_nil_r. apply eq_sym, firstn_all2. lia.
  - cbn [nth]. rewrite IH by (simpl in Hj; lia).
    replace (S j * l)%nat with (List.length b + j * l)%nat
      by (rewrite Hb; cbn [Nat.mul]; lia).
    rewrite (skipn_app (List.length b + j * l) b).
    rewrite (@skipn_all2 _ (List.length b + j * l) b) by lia. cbn [app].
    now replace (List.length b + j * l - List.length b)%nat with (j * l)%nat by lia.
Qed.

(** The rows do not follow the samples: when the map returns, for a
    positive [chunk_length], row [j] of the column [input_ids] holds the
    token ids [j * chunk_length] to [(j + 1) * chunk_length - 1] of the
    batches put end to end, wherever one sample ends and the next begins. *)
Theorem chunk_dataset_row_contents L batches :
  0 < L ->
  match chunk_dataset L batches initial_globals with
  | (Ok results, _) =>
      exists bi,
        dataset_column "input_ids" results = Ok bi /\
        forall j,
          (j < List.length bi)%nat ->
          nth j bi []
          = firstn (Z.to_nat L)
                   (skipn (j * Z.to_nat L) (stream (map fst batches)))
  | (Raise e, _) => e = NameError "batch_chunk_length"
  end.
Proof.
  intros HL.
  pose proof (@chunk_dataset_input_ids L batches HL [] [] HL) as H.
  change (remainder_of [] []) with initial_globals in H.
  destruct (chunk_dataset L batches initial_globals) as [[rs|e] g2]; [|exact H].
  destruct H as (bi & bm & ri & rm & Hbi & _ & _ & _ & _ & Hi & Fi & _).
  exists bi. split; [exact Hbi|]. intros j Hj.
  cbn [app] in Hi. rewrite <- Hi. apply nth_block; [|exact Hj].
  eapply Forall_impl; [|exact Fi]. cbn. intros b Hb. lia.
Qed.

Lemma chunk_dataset_row_contents_witness :
  0 < 3 /\
  match chunk_dataset 3 [([[1;2];[3;4]], [[1;1];[1;1]]); ([[5;6;7]], [[1;1;1]])]
                      initial_globals with
  | (Ok results, _) =>
      exists bi,
        dataset_column "input_ids" results = Ok bi /\
        forall j,
          (j < List.length bi)%nat ->
          nth j bi []
          = firstn (Z.to_nat 3)
                   (skipn (j * Z.to_nat 3)
                          (stream (map fst [([[1;2];[3;4]], [[1;1];[1;1]]);
                                            ([[5;6;7]], [[1;1;1]])])))
  | (Raise e, _) => e = NameError "batch_chunk_length"
  end.
Proof.
  split; [lia|].
  apply (@chunk_dataset_row_contents 3
           [([[1;2];[3;4]], [[1;1];[1;1]]); ([[5;6;7]], [[1;1;1]])]).
  lia.
Defined.

(** ** Strings *)

Lemma append_nil_r s : String.append s EmptyString = s.
Proof. induction s as [|c s IH]; simpl; [reflexivity|now rewrite IH]. Qed.

Lemma append_assoc s t u :
  String.append (String.append s t) u = String.append s (String.append t u).
Proof. induction s as [|c s IH]; simpl; [reflexivity|now rewrite IH]. Qed.

Lemma length_append s t :
  String.length (String.append s t) = (String.length s + String.length t)%nat.
Proof. induction s as [|c s IH]; simpl; [reflexivity|now rewrite IH]. Qed.

Lemma contains_cons sep c s :
  contains sep (String c s) = false ->
  String.prefix sep (String c s) = false /\ contains sep s = false.
Proof. cbn [contains]. intros H. now apply orb_false_iff in H. Qed.

(** Without an occurrence of [sep] there is one piece. *)
Lemma split_from_no_occurrence sep s :
  contains sep s = false ->
  forall piece, split_from sep s 0 piece = [String.append piece s].
Proof.
  induction s as [|c s IH]; intros Hno piece.
  - cbn. now rewrite append_nil_r.
  - apply contains_cons in Hno as [Hp Hs].
    cbn [split_from]. rewrite Hp, (IH Hs), append_assoc. reflexivity.
Qed.

Lemma split_from_skip sep u s piece :
  split_from sep (String.append u s) (String.length u) piece
  = split_from sep s 0 piece.
Proof. induction u as [|c u IH]; simpl; [reflexivity|exact IH]. Qed.

Lemma split_from_not_nil sep s k piece : split_from sep s k piece <> [].
Proof.
  revert k piece. induction s as [|c s IH]; intros k piece; cbn [split_from].
  - discriminate.
  - destruct k; [|apply IH].
    destruct (String.prefix sep (String c s)); [discriminate|apply IH].
Qed.

Lemma last_cons_not_nil {A : Type} (x : A) l d :
  l <> [] -> List.last (x :: l) d = List.last l d.
Proof. destruct l; [congruence|reflexivity]. Qed.

(** [l[-1]] is the last element of a list that has one. *)
Lemma list_getitem_last {A : Type} (l : list A) d :
  l <> [] -> list_getitem l (-1) = Ok (List.last l d).
Proof.
  intros Hl. set (x := List.last l d).
  pose proof (app_removelast_last d Hl) as E. fold x in E. rewrite E.
  unfold list_getitem. rewrite length_app. cbn [List.length].
  destruct (Z.ltb_spec (-1) 0) as [_|]; [|lia].
  set (n := List.length (removelast l)).
  destruct (Z.ltb_spec (-1 + Z.of_nat (n + 1)) 0) as [|_]; [lia|].
  destruct (Z.leb_spec (Z.of_nat (n + 1)) (-1 + Z.of_nat (n + 1))) as [|_]; [lia|].
  cbn [orb]. replace (Z.to_nat (-1 + Z.of_nat (n + 1))) with n by lia.
  unfold n. rewrite nth_error_app2, Nat.sub_diag by lia. reflexivity.
Qed.

(** ["Summary:"] does not overlap itself: an occurrence cannot start less
    than eight characters before another one. *)
Ltac compare_characters :=
  cbn [String.append String.prefix];
  repeat match goal with
         | |- context [ascii_dec ?a ?b] =>
             destruct (ascii_dec a b) as [E|E];
             [try discriminate E; try subst|try reflexivity]
         end.

Lemma marker_no_overlap p c :
  p <> EmptyString ->
  (String.length p < 8)%nat ->
  String.prefix "Summary:" (String.append p (String.append "Summary:" c)) = false.
Proof.
  intros Hp Hlen.
  destruct p as [|a1 p]; [congruence|].
  destruct p as [|a2 p]; [compare_characters|].
  destruct p as [|a3 p]; [compare_characters|].
  destruct p as [|a4 p]; [compare_characters|].
  destruct p as [|a5 p]; [compare_characters|].
  destruct p as [|a6 p]; [compare_characters|].
  destruct p as [|a7 p]; [compare_characters|].
  destruct p as [|a8 p]; [compare_characters|].
  simpl in Hlen. lia.
Qed.

Lemma prefix_marker c :
  String.prefix "Summary:" (String.append "Summary:" c) = true.
Proof. compare_characters; try congruence. now destruct c. Qed.

(** The last piece of a text that ends with ["Summary:"] and a tail in
    which ["Summary:"] does not occur is the tail, wherever the scan stands
    in the text before it. *)
Lemma last_piece_after_marker tail :
  contains "Summary:" tail = false ->
  forall before k piece,
    (k <= String.length before)%nat ->
    List.last (split_from "Summary:"
                 (String.append before (String.append "Summary:" tail)) k piece)
              EmptyString
    = tail.
Proof.
  intros Hno before.
  remember (String.append "Summary:" tail) as m eqn:Em.
  induction before as [|a before IH]; intros k piece Hk.
  - assert (k = 0)%nat as -> by (simpl in Hk; lia).
    cbn [String.append]. subst m.
    change (String.append "Summary:" tail)
      with (String "S" (String.append "ummary:" tail)).
    cbn [split_from].
    change (String "S" (String.append "ummary:" tail))
      with (String.append "Summary:" tail).
    rewrite prefix_marker.
    change (String.length "Summary:" - 1)%nat with (String.length "ummary:").
    rewrite split_from_skip, (@split_from_no_occurrence "Summary:" tail Hno).
    reflexivity.
  - cbn [String.append split_from]. destruct k as [|k].
    + destruct (String.prefix "Summary:" (String a (String.append before m)))
        eqn:Hp.
      * rewrite last_cons_not_nil by apply split_from_not_nil.
        apply IH.
        destruct (Nat.lt_ge_cases (String.length (String a before)) 8) as [Hlt|Hge];
          [|simpl in *; lia].
        subst m.
        change (String a (String.append before (String.append "Summary:" tail)))
          with (String.append (String a before) (String.append "Summary:" tail))
          in Hp.
        rewrite (@marker_no_overlap (String a before) tail) in Hp;
          [discriminate|discriminate|exact Hlt].
      * apply IH. lia.
    + apply IH. simpl in Hk. lia.
Qed.

Lemma printed_summary_last text :
  printed_summary text
  = Ok (List.last (split_from "Summary:" text 0 EmptyString) EmptyString).
Proof.
  unfold printed_summary, split. cbn [String.eqb obind].
  apply list_getitem_last, split_from_not_nil.
Qed.

(** ** Properties of the prompt cells *)

(** The inference cell prints what follows the last ["Summary:"] of the
    generated text: for a text that ends with ["Summary:"] and a tail in
    which ["Summary:"] does not occur, whatever stands before, the tail. *)
Theorem printed_summary_after_marker before tail :
  contains "Summary:" tail = false ->
  printed_summary (String.append before (String.append "Summary:" tail))
  = Ok tail.
Proof.
  intros Hno. rewrite printed_summary_last.
  now rewrite (@last_piece_after_marker tail Hno before 0%nat EmptyString) by lia.
Qed.

Lemma printed_summary_after_marker_witness :
  contains "Summary:" " They meet at 7." = false /\
  printed_summary
    (String.append "Summary: of the chat? --- "
                   (String.append "Summary:" " They meet at 7."))
  = Ok " They meet at 7.".
Proof.
  split; [reflexivity|].
  apply (@printed_summary_after_marker "Summary: of the chat? --- "
           " They meet at 7.").
  reflexivity.
Defined.

(** A generated text in which ["Summary:"] does not occur is printed as it
    is: index [-1] never raises, a split has at least one piece. *)
Theorem printed_summary_without_marker text :
  contains "Summary:" text = false ->
  printed_summary text = Ok text.
Proof.
  intros Hno. rewrite printed_summary_last.
  now rewrite (@split_from_no_occurrence "Summary:" text Hno).
Qed.

Lemma printed_summary_without_marker_witness :
  contains "Summary:" "They meet at 7." = false /\
  printed_summary "They meet at 7." = Ok "They meet at 7.".
Proof.
  split; [reflexivity|].
  apply (@printed_summary_without_marker "They meet at 7."). reflexivity.
Defined.

Lemma format_prompt_template dialogue summary eos_token :
  format prompt_template
         [("dialogue", dialogue); ("summary", summary); ("eos_token", eos_token)]
  = Ok (text_for dialogue summary eos_token).
Proof.
  unfold text_for, prompt_for. rewrite !append_assoc.
  unfold format, prompt_template, LF. cbn. rewrite append_nil_r.
  reflexivity.
Qed.

Lemma format_inference_prompt_template dialogue :
  format inference_prompt_template [("dialogue", dialogue)]
  = Ok (prompt_for dialogue).
Proof.
  unfold prompt_for. unfold format, inference_prompt_template, LF. cbn.
  reflexivity.
Qed.

(** [template_dataset] on a row that has a dialogue and a summary returns
    the row with the column [text] set to the prompt, the summary and the
    end-of-sequence token; the dialogue and the summary are copied as they
    are, braces included, and no other column is changed. *)
Theorem template_dataset_adds_text eos_token sample dialogue summary :
  Dict.getitem sample "dialogue" = Ok dialogue ->
  Dict.getitem sample "summary" = Ok summary ->
  exists result,
    template_dataset eos_token sample = Ok result /\
    Dict.getitem result "text"
    = Ok (String.append "Summarize the chat dialogue:"
           (String.append LF (String.append dialogue
           (String.append LF (String.append "---"
           (String.append LF (String.append "Summary:"
           (String.append LF (String.append summary eos_token))))))))) /\
    forall k, k <> "text" -> Dict.getitem result k = Dict.getitem sample k.
Proof.
  intros Hd Hs. unfold template_dataset.
  rewrite Hd, Hs. cbn [obind]. rewrite format_prompt_template. cbn [obind].
  eexists. split; [reflexivity|]. split.
  - rewrite getitem_setitem_same. unfold text_for, prompt_for.
    now rewrite !append_assoc.
  - intros k Hk. apply getitem_setitem_other. congruence.
Qed.

Lemma template_dataset_adds_text_witness :
  let sample := [("id", "13818513"); ("dialogue", "Amanda: {cookies}?");
                 ("summary", "Amanda offers cookies.")] in
  Dict.getitem sample "dialogue" = Ok "Amanda: {cookies}?" /\
  Dict.getitem sample "summary" = Ok "Amanda offers cookies." /\
  exists result,
    template_dataset "</s>" sample = Ok result /\
    Dict.getitem result "text"
    = Ok (String.append "Summarize the chat dialogue:"
           (String.append LF (String.append "Amanda: {cookies}?"
           (String.append LF (String.append "---"
           (String.append LF (String.append "Summary:"
           (String.append LF (String.append "Amanda offers cookies." "</s>"))))))))) /\
    forall k, k <> "text" -> Dict.getitem result k = Dict.getitem sample k.
Proof.
  intros sample. split; [reflexivity|]. split; [reflexivity|].
  apply (@template_dataset_adds_text "</s>" sample
           "Amanda: {cookies}?" "Amanda offers cookies."); reflexivity.
Defined.

(** A row without a dialogue makes [template_dataset] raise
    [KeyError: 'dialogue'], and a row with a dialogue and without a summary
    [KeyError: 'summary']: the dialogue is looked up first. *)
Theorem template_dataset_missing_column eos_token sample k :
  (k = "dialogue" /\ ~ In "dialogue" (Dict.keys sample)) \/
  (k = "summary" /\ In "dialogue" (Dict.keys sample) /\
   ~ In "summary" (Dict.keys sample)) ->
  template_dataset eos_token sample = Raise (KeyError k).
Proof.
  unfold template_dataset. intros [[-> Hd]|(-> & Hd & Hs)].
  - now rewrite (getitem_absent sample "dialogue" Hd).
  - destruct (getitem_present sample "dialogue" Hd) as [d ->].
    now rewrite (getitem_absent sample "summary" Hs).
Qed.

Lemma template_dataset_missing_column_witness :
  let sample := [("id", "13818513"); ("dialogue", "Amanda: cookies?")] in
  (("summary" = "dialogue" /\ ~ In "dialogue" (Dict.keys sample)) \/
   ("summary" = "summary" /\ In "dialogue" (Dict.keys sample) /\
    ~ In "summary" (Dict.keys sample))) /\
  template_dataset "</s>" sample = Raise (KeyError "summary").
Proof.
  intros sample.
  assert (H : ("summary" = "dialogue" /\ ~ In "dialogue" (Dict.keys sample)) \/
              ("summary" = "summary" /\ In "dialogue" (Dict.keys sample) /\
               ~ In "summary" (Dict.keys sample))).
  { right. split; [reflexivity|]. split; [simpl; auto|].
    simpl. intros [H|[H|[]]]; discriminate H. }
  split; [exact H|].
  exact (@template_dataset_missing_column "</s>" sample "summary" H).
Defined.

(** The text a sample is trained on starts with the prompt that the
    inference cell builds for its dialogue: it is that prompt followed by
    the summary and the end-of-sequence token. *)
Theorem training_text_extends_prompt eos_token sample dialogue summary :
  Dict.getitem sample "dialogue" = Ok dialogue ->
  Dict.getitem sample "summary" = Ok summary ->
  exists inputs result text,
    formatted_inputs sample = Ok inputs /\
    template_dataset eos_token sample = Ok result /\
    Dict.getitem result "text" = Ok text /\
    text = String.append inputs (String.append summary eos_token).
Proof.
  intros Hd Hs. unfold formatted_inputs, template_dataset.
  rewrite Hd, Hs. cbn [obind].
  rewrite format_prompt_template, format_inference_prompt_template. cbn [obind].
  do 3 eexists. split; [reflexivity|]. split; [reflexivity|].
  split; [apply getitem_setitem_same|reflexivity].
Qed.

Lemma training_text_extends_prompt_witness :
  let sample := [("id", "13818513"); ("dialogue", "Amanda: cookies?");
                 ("summary", "Amanda offers cookies.")] in
  Dict.getitem sample "dialogue" = Ok "Amanda: cookies?" /\
  Dict.getitem sample "summary" = Ok "Amanda offers cookies." /\
  exists inputs result text,
    formatted_inputs sample = Ok inputs /\
    template_dataset "</s>" sample = Ok result /\
    Dict.getitem result "text" = Ok text /\
    text = String.append inputs (String.append "Amanda offers cookies." "</s>").
Proof.
  intros sample. split; [reflexivity|]. split; [reflexivity|].
  apply (@training_text_extends_prompt "</s>" sample
           "Amanda: cookies?" "Amanda offers cookies."); reflexivity.
Defined.

Lemma contains_after_newline text :
  contains "Summary:" text = false ->
  contains "Summary:" (String.append LF text) = false.
Proof.
  intros Hno. unfold LF. cbn [String.append contains]. rewrite Hno.
  compare_characters.
Qed.

Lemma prompt_for_ends_with_marker dialogue text :
  String.append (prompt_for dialogue) text
  = String.append
      (String.append "Summarize the chat dialogue:"
         (String.append LF (String.append dialogue
         (String.append LF (String.append "---" LF)))))
      (String.append "Summary:" (String.append LF text)).
Proof. unfold prompt_for. now rewrite !append_assoc. Qed.

(** When the endpoint returns the prompt followed by a completion in which
    ["Summary:"] does not occur, the inference cell prints a newline and
    the completion, whatever the dialogue is. *)
Theorem printed_summary_of_completion sample dialogue completion :
  Dict.getitem sample "dialogue" = Ok dialogue ->
  contains "Summary:" completion = false ->
  exists inputs,
    formatted_inputs sample = Ok inputs /\
    printed_summary (String.append inputs completion)
    = Ok (String.append LF completion).
Proof.
  intros Hd Hno. unfold formatted_inputs. rewrite Hd. cbn [obind].
  rewrite format_inference_prompt_template.
  eexists. split; [reflexivity|].
  rewrite prompt_for_ends_with_marker, printed_summary_last.
  now rewrite (@last_piece_after_marker _ (contains_after_newline _ Hno) _
                 0%nat EmptyString) by lia.
Qed.

Lemma printed_summary_of_completion_witness :
  let sample := [("dialogue", "Kirsten: Summary: bowling on Friday?")] in
  Dict.getitem sample "dialogue" = Ok "Kirsten: Summary: bowling on Friday?" /\
  contains "Summary:" "They go bowling." = false /\
  exists inputs,
    formatted_inputs sample = Ok inputs /\
    printed_summary (String.append inputs "They go bowling.")
    = Ok (String.append LF "They go bowling.").
Proof.
  intros sample. split; [reflexivity|]. split; [reflexivity|].
  apply (@printed_summary_of_completion sample
           "Kirsten: Summary: bowling on Friday?" "They go bowling.");
    reflexivity.
Defined.

(** What is printed for the training text of a sample is its summary,
    after a newline and before the end-of-sequence token, when
    ["Summary:"] does not occur in the summary followed by the token. *)
Theorem printed_summary_of_training_text eos_token sample dialogue summary :
  Dict.getitem sample "dialogue" = Ok dialogue ->
  Dict.getitem sample "summary" = Ok summary ->
  contains "Summary:" (String.append summary eos_token) = false ->
  exists result text,
    template_dataset eos_token sample = Ok result /\
    Dict.getitem result "text" = Ok text /\
    printed_summary text
    = Ok (String.append LF (String.append summary eos_token)).
Proof.
  intros Hd Hs Hno. unfold template_dataset.
  rewrite Hd, Hs. cbn [obind]. rewrite format_prompt_template. cbn [obind].
  do 2 eexists. split; [reflexivity|]. split; [apply getitem_setitem_same|].
  unfold text_for.
  rewrite prompt_for_ends_with_marker, printed_summary_last.
  now rewrite (@last_piece_after_marker _ (contains_after_newline _ Hno) _
                 0%nat EmptyString) by lia.
Qed.

Lemma printed_summary_of_training_text_witness :
  let sample := [("id", "13818513"); ("dialogue", "Amanda: cookies?");
                 ("summary", "Amanda offers cookies.")] in
  Dict.getitem sample "dialogue" = Ok "Amanda: cookies?" /\
  Dict.getitem sample "summary" = Ok "Amanda offers cookies." /\
  contains "Summary:" (String.append "Amanda offers cookies." "</s>") = false /\
  exists result text,
    template_dataset "</s>" sample = Ok result /\
    Dict.getitem result "text" = Ok text /\
    printed_summary text
    = Ok (String.append LF (String.append "Amanda offers cookies." "</s>")).
Proof.
  intros sample. split; [reflexivity|]. split; [reflexivity|].
  split; [reflexivity|].
  apply (@printed_summary_of_training_text "</s>" sample
           "Amanda: cookies?" "Amanda offers cookies."); reflexivity.
Defined.

(** ** The random sample *)

Lemma list_getitem_in_range {A : Type} (l : list A) i :
  0 <= i < len l -> exists x, list_getitem l i = Ok x.
Proof.
  intros Hi.
  assert (E0 : (i <? 0) = false) by (apply Z.ltb_ge; lia).
  assert (E1 : (len l <=? i) = false) by (apply Z.leb_gt; lia).
  unfold list_getitem. cbv zeta. rewrite E0. cbv iota. rewrite E0, E1.
  cbn [orb].
  destruct (nth_error l (Z.to_nat i)) as [x|] eqn:E; [eexists; reflexivity|].
  apply nth_error_None in E. lia.
Qed.

Lemma list_getitem_at_length {A : Type} (l : list A) :
  list_getitem l (len l) = Raise IndexError.
Proof.
  assert (E0 : (len l <? 0) = false) by (apply Z.ltb_ge; lia).
  unfold list_getitem. cbv zeta. rewrite E0. cbv iota.
  now rewrite E0, Z.leb_refl.
Qed.

(** The upper bound given to [randint] is the length of the dataset, one
    past its last row: showing a random sample raises [IndexError] exactly
    when [randint] returns that bound, and returns a row for every other
    number it can return. *)
Theorem random_sample_out_of_range {A : Type} (dataset : list A) drawn :
  randint_returns 0 (len dataset) drawn ->
  (drawn = len dataset -> random_sample dataset drawn = Raise IndexError) /\
  (drawn <> len dataset -> exists row, random_sample dataset drawn = Ok row).
Proof.
  unfold randint_returns, random_sample. intros Hdrawn. split.
  - intros ->. apply list_getitem_at_length.
  - intros Hne. apply list_getitem_in_range. lia.
Qed.

Lemma random_sample_out_of_range_witness :
  randint_returns 0 (len ["a"; "b"; "c"]) 3 /\
  (3 = len ["a"; "b"; "c"] ->
   random_sample ["a"; "b"; "c"] 3 = Raise IndexError) /\
  (3 <> len ["a"; "b"; "c"] ->
   exists row, random_sample ["a"; "b"; "c"] 3 = Ok row).
Proof.
  assert (H : randint_returns 0 (len ["a"; "b"; "c"]) 3)
    by (unfold randint_returns; simpl; lia).
  split; [exact H|].
  exact (@random_sample_out_of_range string ["a"; "b"; "c"] 3 H).
Defined.
